(** * Hyperion Python SDK: the HTTP client of [hyperion_sdk/client.py]

    A shallow embedding of [HyperionClient] and of its six operations,
    together with the properties of its request/response marshaling and
    error classification.

    Python values are represented as follows.
    - [str] is a [string] (the UTF-8 bytes of the text), so that
      [str.encode("utf-8")] is the identity on the bytes and
      [bytes.decode("utf-8")] is a validity check.
    - [bytes] is a [list byte].
    - [dict] with string keys and string values (the request headers) is a
      [gmap string string]; a JSON object keeps its pairs in order.
    - a raised exception is the [Raise] outcome of the [py] monad, which also
      threads the store (the client object and the network). *)

From Stdlib Require Import ZArith NArith List Bool Lia.
From Stdlib.Strings Require Import Ascii String Byte.
From stdpp Require Import base gmap strings pretty.

Import ListNotations.
Local Open Scope Z_scope.

(* Let [simpl] and [cbn] compute the concatenation of texts. *)
#[local] Arguments String.append !s1 s2 : simpl nomatch.

(** ** Python text and bytes *)

Module Py.

Definition bytes := list byte.

(** [s.rstrip("/")]: the longest prefix of [s] that does not end in a slash. *)
Fixpoint rstrip_slash (s : string) : string :=
  match s with
  | EmptyString => EmptyString
  | String c s' =>
      match rstrip_slash s' with
      | EmptyString => if Ascii.eqb c "/" then EmptyString else String c EmptyString
      | r => String c r
      end
  end.

(** [n] copies of the separator. *)
Fixpoint slashes (n : nat) : string :=
  match n with
  | O => EmptyString
  | S k => String "/" (slashes k)
  end.

Definition ends_with_slash (s : string) : Prop :=
  exists p, s = p +:+ "/".

(** [str(n)] for an [int]. *)
Definition str_of_int (n : Z) : string := pretty n.

(** [s.encode("utf-8")]. *)
Definition encode_utf8 (s : string) : bytes := String.list_byte_of_string s.

Definition between (lo hi : N) (b : byte) : bool :=
  ((lo <=? Byte.to_N b) && (Byte.to_N b <=? hi))%N.

Definition continuation : byte -> bool := between 0x80 0xBF.

(** Second byte of a three-byte sequence led by [b0]: no overlong forms,
    no surrogates. *)
Definition second_of_three (b0 b1 : byte) : bool :=
  if between 0xE0 0xE0 b0 then between 0xA0 0xBF b1
  else if between 0xED 0xED b0 then between 0x80 0x9F b1
  else continuation b1.

(** Second byte of a four-byte sequence led by [b0]: no overlong forms,
    nothing above U+10FFFF. *)
Definition second_of_four (b0 b1 : byte) : bool :=
  if between 0xF0 0xF0 b0 then between 0x90 0xBF b1
  else if between 0xF4 0xF4 b0 then between 0x80 0x8F b1
  else continuation b1.

(** The well-formed UTF-8 byte sequences, which are the ones the strict
    decoder accepts. *)
Fixpoint utf8_valid (bs : bytes) : bool :=
  match bs with
  | [] => true
  | b0 :: r0 =>
      if between 0x00 0x7F b0 then utf8_valid r0
      else
        match r0 with
        | [] => false
        | b1 :: r1 =>
            if between 0xC2 0xDF b0 then continuation b1 && utf8_valid r1
            else
              match r1 with
              | [] => false
              | b2 :: r2 =>
                  if between 0xE0 0xEF b0
                  then second_of_three b0 b1 && continuation b2 && utf8_valid r2
                  else
                    match r2 with
                    | [] => false
                    | b3 :: r3 =>
                        between 0xF0 0xF4 b0 && second_of_four b0 b1
                        && continuation b2 && continuation b3 && utf8_valid r3
                    end
              end
        end
  end.

(** Truthiness of a [str]: the empty string is false. *)
Definition truthy (s : string) : bool :=
  match s with
  | EmptyString => false
  | String _ _ => true
  end.

(** [s in t] for two strings. *)
Definition contains (t s : string) : Prop :=
  exists pre post, t = pre +:+ s +:+ post.

End Py.

(** ** JSON values, exceptions and the [py] monad *)

(** The values [json.loads] produces and [json.dumps] consumes.  A float is
    carried by its [repr], the text [json.dumps] prints for it unless it is
    a NaN or an infinity; an object keeps its pairs in insertion order, as a
    Python [dict] does. *)
#[warnings="-register-all"]
Inductive json : Type :=
| JNull
| JBool (b : bool)
| JInt (n : Z)
| JFloat (repr : string)
| JStr (s : string)
| JArr (items : list json)
| JObj (pairs : list (string * json)).

(** [Dict[str, Any]]. *)
Definition pydict := list (string * json).

(** The exceptions that can cross [_request].  [HTTPError] carries
    [exc.code], [exc.reason] and the contents of [exc.fp]; [None] is an
    [exc.fp] that tests false, which [urlopen] gives to no error it raises
    for a response: such an error always comes with the stream of the
    response, empty when the response has no body.  [URLError] carries
    [str(exc.reason)].
    [HTTPError] is a subclass of [URLError] in Python: the handler for it
    comes first in the source, so the constructors are kept apart here. *)
Inductive exn : Type :=
| HyperionClientError (msg : string)
| HTTPError (code : Z) (reason : string) (fp : option Py.bytes)
| URLError (reason : string)
| UnicodeDecodeError
| LookupError (encoding : string)
| JSONDecodeError
| OtherError (name : string).

Inductive result (A : Type) : Type :=
| Return (a : A)
| Raise (e : exn).
Arguments Return {A} a.
Arguments Raise {A} e.

(** What [urllib.request.Request(url, data=, headers=, method=)] is built
    from. *)
Record Request : Type := mkRequest {
  full_url : string;
  req_body : option Py.bytes;
  req_headers : gmap string string;
  req_method : string
}.

(** The object [urlopen] returns: its status, the charset parameter of its
    Content-Type header ([get_content_charset()]) and the bytes [read()]
    yields. *)
Record Response : Type := mkResponse {
  status : Z;
  content_charset : option string;
  body : Py.bytes
}.

(** @dataclass class HyperionClient *)
Record HyperionClient : Type := mkClient {
  base_url : string;
  api_key : option string;
  timeout : Z
}.

(** [HyperionClient(base_url)]: the dataclass defaults. *)
Definition new_client (url : string) : HyperionClient :=
  {| base_url := url; api_key := None; timeout := 10 |}.

(** The store a call runs in: the client object [self], the network, and the
    log of the [urlopen] invocations made so far, oldest first.  The network
    answers the [n]-th invocation (counting from 0) for a given request and
    timeout either with a response or by raising. *)
Record world : Type := mkWorld {
  client : HyperionClient;
  network : nat -> Request -> Z -> result Response;
  sent : list (Request * Z)
}.

Definition py (A : Type) : Type := world -> result A * world.

Definition ret {A} (a : A) : py A := fun w => (Return a, w).

Definition raise {A} (e : exn) : py A := fun w => (Raise e, w).

Definition bind {A B} (m : py A) (k : A -> py B) : py B :=
  fun w =>
    match m w with
    | (Return a, w') => k a w'
    | (Raise e, w') => (Raise e, w')
    end.

(** [try: m except ...: h]: the handler sees every exception of [m] and
    re-raises the ones no [except] clause matches. *)
Definition try_except {A} (m : py A) (h : exn -> py A) : py A :=
  fun w =>
    match m w with
    | (Return a, w') => (Return a, w')
    | (Raise e, w') => h e w'
    end.

(** Reading the attributes of [self]. *)
Definition get_self : py HyperionClient := fun w => (Return (client w), w).

(** Lifting a library call that returns or raises. *)
Definition lift {A} (r : result A) : py A := fun w => (r, w).

Declare Scope py_scope.
Delimit Scope py_scope with py.
Notation "x <- m ;; k" := (bind m (fun x => k))
  (at level 100, m at next level, right associativity) : py_scope.

(** [urllib.request.urlopen(request, timeout=t)]: one exchange with the
    network, recorded in the log.  The log is of the requests handed to
    [urllib]; a URL that [urllib] itself turns down before any exchange is
    one of the ways the entry of the network raises. *)
Definition urlopen (request : Request) (t : Z) : py Response :=
  fun w =>
    (network w (length (sent w)) request t,
     {| client := client w; network := network w; sent := sent w ++ [(request, t)] |}).

(** ** The standard-library calls of the client

    [json.dumps], [json.loads] and the codec registry behind
    [bytes.decode] belong to the Python runtime, not to the SDK: the client
    is written against them, and so is the model.  [lib_loads] answers
    [None] where [json.loads] raises [JSONDecodeError]; [lib_codec] stands
    for the registry without its strict UTF-8 entry and answers [None] for
    a name it does not know, and the codec found answers [None] where
    decoding raises [UnicodeDecodeError]. *)
Class PyLib : Type := {
  lib_dumps : json -> string;
  lib_loads : string -> option json;
  lib_codec : string -> option (Py.bytes -> option string)
}.

(** The six operations as one type, with their arguments. *)
Inductive operation : Type :=
| GetMonitoringSnapshot
| GetHealth
| AutoscalePlan (replicas : option Z)
| DeploymentPlan (config : pydict)
| DeploymentApply (config : pydict)
| DeploymentStatus.

Section Client.

Context {lib : PyLib}.

(** [json.dumps(obj)] *)
Definition json_dumps (obj : json) : string := lib_dumps obj.

(** [json.loads(s)] *)
Definition json_loads (s : string) : result json :=
  match lib_loads s with
  | Some v => Return v
  | None => Raise JSONDecodeError
  end.

(** [b.decode(encoding)].  CPython answers the empty text for the empty
    byte string before it looks the codec up, whatever the name; the UTF-8
    codec is strict. *)
Definition bytes_decode (encoding : string) (b : Py.bytes) : result string :=
  match b with
  | [] => Return EmptyString
  | _ :: _ =>
      if String.eqb encoding "utf-8"
      then if Py.utf8_valid b
           then Return (String.string_of_list_byte b)
           else Raise UnicodeDecodeError
      else
        match lib_codec encoding with
        | Some decoder =>
            match decoder b with
            | Some text => Return text
            | None => Raise UnicodeDecodeError
            end
        | None => Raise (LookupError encoding)
        end
  end.

(** [HyperionClient._request(self, path, method, data)] *)
Definition _request (path method : string) (data : option pydict) : py json :=
  (self <- get_self ;;
   let url := Py.rstrip_slash (base_url self) +:+ path in
   let headers : gmap string string := {[ "Content-Type" := "application/json" ]} in
   let headers :=
     match api_key self with
     | Some key => if Py.truthy key then <[ "X-API-Key" := key ]> headers else headers
     | None => headers
     end in
   let req_data :=
     match data with
     | Some d => Some (Py.encode_utf8 (json_dumps (JObj d)))
     | None => None
     end in
   let request :=
     {| full_url := url; req_body := req_data;
        req_headers := headers; req_method := method |} in
   try_except
     (response <- urlopen request (timeout self) ;;
      let charset :=
        match content_charset response with
        | Some cs => if Py.truthy cs then cs else "utf-8"
        | None => "utf-8"
        end in
      payload <- lift (bytes_decode charset (body response)) ;;
      if negb (Py.truthy payload) then ret (JObj [])
      else lift (json_loads payload))
     (fun exc =>
        match exc with
        | HTTPError code reason fp =>
            detail <- match fp with
                      | Some content => lift (bytes_decode "utf-8" content)
                      | None => ret reason
                      end ;;
            raise (HyperionClientError
                     ("HTTP " +:+ Py.str_of_int code +:+ " for " +:+ method
                      +:+ " " +:+ path +:+ ": " +:+ detail))
        | URLError reason =>
            raise (HyperionClientError
                     ("Unable to reach Hyperion at " +:+ url +:+ ": " +:+ reason))
        | other => raise other
        end))%py.

(** Monitoring endpoints *)

Definition get_monitoring_snapshot : py json :=
  _request "/api/monitoring" "GET" None.

Definition get_health : py json :=
  _request "/api/health" "GET" None.

(** Autoscaling *)

Definition autoscale_plan (replicas : option Z) : py json :=
  let payload : option pydict :=
    match replicas with
    | Some n => Some [("replicas", JInt n)]
    | None => None
    end in
  _request "/api/autoscale/plan" "POST" payload.

(** Deployment management *)

Definition deployment_plan (config : pydict) : py json :=
  _request "/api/deploy/plan" "POST" (Some config).

Definition deployment_apply (config : pydict) : py json :=
  _request "/api/deploy/apply" "POST" (Some config).

Definition deployment_status : py json :=
  _request "/api/deploy/status" "GET" None.

(** Dispatch of an operation to the method of its name. *)
Definition call (op : operation) : py json :=
  match op with
  | GetMonitoringSnapshot => get_monitoring_snapshot
  | GetHealth => get_health
  | AutoscalePlan replicas => autoscale_plan replicas
  | DeploymentPlan config => deployment_plan config
  | DeploymentApply config => deployment_apply config
  | DeploymentStatus => deployment_status
  end.

End Client.

(** ** The operation table of the interface

    Verb, path and request body of each operation, as the table of the HTTP
    surface lists them. *)

Definition path_of (op : operation) : string :=
  match op with
  | GetMonitoringSnapshot => "/api/monitoring"
  | GetHealth => "/api/health"
  | AutoscalePlan _ => "/api/autoscale/plan"
  | DeploymentPlan _ => "/api/deploy/plan"
  | DeploymentApply _ => "/api/deploy/apply"
  | DeploymentStatus => "/api/deploy/status"
  end.

Definition verb_of (op : operation) : string :=
  match op with
  | GetMonitoringSnapshot | GetHealth | DeploymentStatus => "GET"
  | AutoscalePlan _ | DeploymentPlan _ | DeploymentApply _ => "POST"
  end.

Definition data_of (op : operation) : option pydict :=
  match op with
  | AutoscalePlan (Some n) => Some [("replicas", JInt n)]
  | AutoscalePlan None => None
  | DeploymentPlan config | DeploymentApply config => Some config
  | GetMonitoringSnapshot | GetHealth | DeploymentStatus => None
  end.

Definition is_object (v : json) : bool :=
  match v with
  | JObj _ => true
  | _ => false
  end.

(** The charset a response is decoded with: [get_content_charset() or "utf-8"]. *)
Definition charset_of (r : Response) : string :=
  match content_charset r with
  | Some cs => if Py.truthy cs then cs else "utf-8"
  | None => "utf-8"
  end.

(** The invocations of [urlopen] a computation makes when started in [w]. *)
Definition sent_by {A} (m : py A) (w : world) : list (Request * Z) :=
  drop (length (sent w)) (sent (snd (m w))).

(** The store after one more invocation of [urlopen]. *)
Definition logged (w : world) (request : Request) : world :=
  {| client := client w; network := network w;
     sent := sent w ++ [(request, timeout (client w))] |}.

(** ** A sample runtime

    An executable instance of [PyLib], to run the client on concrete inputs:
    a JSON printer with the separators and the escapes of [json.dumps], a
    reader for the JSON grammar, and a registry that knows the [latin-1]
    codec.  It stands in for the runtime and is no part of the statements:
    the reader keeps a float as its literal and knows no lone surrogate. *)

Module Sample.

Definition dquote : ascii := "034"%char.
Definition backslash : ascii := "092"%char.

Definition hex_digit (n : N) : ascii :=
  ascii_of_N (if (n <? 10)%N then 48 + n else 87 + n).

(** The escape of one 16-bit code unit: a backslash, [u] and four lower-case
    hexadecimal digits. *)
Definition u_escape (u : N) : string :=
  String backslash
    (String "u"
       (String (hex_digit (u / 4096))
          (String (hex_digit ((u / 256) mod 16))
             (String (hex_digit ((u / 16) mod 16))
                (String (hex_digit (u mod 16)) EmptyString)))))%N.

(** The escape of a code point: one unit, or a surrogate pair above the
    basic plane. *)
Definition cp_escape (cp : N) : string :=
  (if cp <? 0x10000 then u_escape cp
   else u_escape (0xD800 + (cp - 0x10000) / 1024)
        +:+ u_escape (0xDC00 + (cp - 0x10000) mod 1024))%N.

(** A 7-bit character inside a string literal: the quote, the backslash and
    everything outside the range from the space to the tilde are escaped. *)
Definition escape_ascii (c : ascii) : string :=
  let n := N_of_ascii c in
  if Ascii.eqb c dquote then String backslash (String dquote EmptyString)
  else if Ascii.eqb c backslash then String backslash (String backslash EmptyString)
  else if (n =? 10)%N then String backslash "n"
  else if (n =? 13)%N then String backslash "r"
  else if (n =? 9)%N then String backslash "t"
  else if (n =? 8)%N then String backslash "b"
  else if (n =? 12)%N then String backslash "f"
  else if ((n <? 32) || (n =? 127))%N then u_escape n
  else String c EmptyString.

(** The inside of a string literal for a text: [ensure_ascii] is on, so a
    character beyond 7 bits is decoded from its UTF-8 bytes and escaped. *)
Fixpoint escape (s : string) : string :=
  match s with
  | EmptyString => EmptyString
  | String c r =>
      let n := N_of_ascii c in
      if (n <? 0x80)%N then escape_ascii c +:+ escape r
      else
        match r with
        | EmptyString => String c EmptyString
        | String c1 r1 =>
            let n1 := (N_of_ascii c1 mod 64)%N in
            if (n <? 0xE0)%N then cp_escape ((n mod 32) * 64 + n1)%N +:+ escape r1
            else
              match r1 with
              | EmptyString => String c (escape r)
              | String c2 r2 =>
                  let n2 := (N_of_ascii c2 mod 64)%N in
                  if (n <? 0xF0)%N
                  then cp_escape ((n mod 16) * 4096 + n1 * 64 + n2)%N +:+ escape r2
                  else
                    match r2 with
                    | EmptyString => String c (escape r)
                    | String c3 r3 =>
                        let n3 := (N_of_ascii c3 mod 64)%N in
                        cp_escape ((n mod 8) * 262144 + n1 * 4096 + n2 * 64 + n3)%N
                        +:+ escape r3
                    end
              end
        end
  end.

Definition quoted (s : string) : string :=
  String dquote (escape s) +:+ String dquote EmptyString.

Fixpoint join (sep : string) (parts : list string) : string :=
  match parts with
  | [] => EmptyString
  | [p] => p
  | p :: rest => p +:+ sep +:+ join sep rest
  end.

(** The text [json.dumps] prints for a float of the given [repr]. *)
Definition float_text (repr : string) : string :=
  if String.eqb repr "nan" then "NaN"
  else if String.eqb repr "inf" then "Infinity"
  else if String.eqb repr "-inf" then "-Infinity"
  else repr.

Fixpoint dumps (v : json) : string :=
  match v with
  | JNull => "null"
  | JBool b => if b then "true" else "false"
  | JInt n => Py.str_of_int n
  | JFloat repr => float_text repr
  | JStr s => quoted s
  | JArr items => "[" +:+ join ", " (map dumps items) +:+ "]"
  | JObj pairs =>
      "{" +:+ join ", " (map (fun kv => match kv with
                                        | (k, x) => quoted k +:+ ": " +:+ dumps x
                                        end) pairs) +:+ "}"
  end.

Definition is_space (c : ascii) : bool :=
  Ascii.eqb c " " || Ascii.eqb c "009" || Ascii.eqb c "010" || Ascii.eqb c "013".

Fixpoint skip_ws (s : string) : string :=
  match s with
  | String c r => if is_space c then skip_ws r else s
  | EmptyString => s
  end.

Fixpoint strip_prefix (p s : string) : option string :=
  match p, s with
  | EmptyString, _ => Some s
  | String a p', String b s' => if Ascii.eqb a b then strip_prefix p' s' else None
  | String _ _, EmptyString => None
  end.

Definition hex_value (c : ascii) : option N :=
  let n := N_of_ascii c in
  if ((48 <=? n) && (n <=? 57))%N then Some (n - 48)%N
  else if ((97 <=? n) && (n <=? 102))%N then Some (n - 87)%N
  else if ((65 <=? n) && (n <=? 70))%N then Some (n - 55)%N
  else None.

(** Four hexadecimal digits at the head of [s]. *)
Definition read_hex4 (s : string) : option (N * string) :=
  match s with
  | String a (String b (String c (String d r))) =>
      match hex_value a, hex_value b, hex_value c, hex_value d with
      | Some x, Some y, Some z, Some t => Some ((((x * 16 + y) * 16 + z) * 16 + t)%N, r)
      | _, _, _, _ => None
      end
  | _ => None
  end.

(** The UTF-8 bytes of a code point. *)
Definition utf8_of_cp (cp : N) : string :=
  (if cp <? 0x80 then String (ascii_of_N cp) EmptyString
   else if cp <? 0x800 then
     String (ascii_of_N (0xC0 + cp / 64)) (String (ascii_of_N (0x80 + cp mod 64)) EmptyString)
   else if cp <? 0x10000 then
     String (ascii_of_N (0xE0 + cp / 4096))
       (String (ascii_of_N (0x80 + (cp / 64) mod 64))
          (String (ascii_of_N (0x80 + cp mod 64)) EmptyString))
   else
     String (ascii_of_N (0xF0 + cp / 262144))
       (String (ascii_of_N (0x80 + (cp / 4096) mod 64))
          (String (ascii_of_N (0x80 + (cp / 64) mod 64))
             (String (ascii_of_N (0x80 + cp mod 64)) EmptyString))))%N.

(** The character a one-letter escape stands for. *)
Definition simple_escape (e : ascii) : option ascii :=
  if Ascii.eqb e dquote || Ascii.eqb e backslash || Ascii.eqb e "/" then Some e
  else if Ascii.eqb e "b" then Some "008"%char
  else if Ascii.eqb e "f" then Some "012"%char
  else if Ascii.eqb e "n" then Some "010"%char
  else if Ascii.eqb e "r" then Some "013"%char
  else if Ascii.eqb e "t" then Some "009"%char
  else None.

Definition prepend (t : string) (r : option (string * string)) : option (string * string) :=
  match r with
  | Some (u, rest) => Some (t +:+ u, rest)
  | None => None
  end.

(** The text of a string literal, after its opening quote, and what follows
    the closing quote.  A raw control character is refused, as the strict
    reader does; a surrogate that is not half of a pair has no UTF-8 form
    and is refused here, where Python keeps it. *)
Fixpoint read_string (fuel : nat) (s : string) : option (string * string) :=
  match fuel with
  | O => None
  | S f =>
      match s with
      | EmptyString => None
      | String c r =>
          if Ascii.eqb c dquote then Some (EmptyString, r)
          else if Ascii.eqb c backslash then
            match r with
            | EmptyString => None
            | String e r' =>
                if Ascii.eqb e "u" then
                  match read_hex4 r' with
                  | None => None
                  | Some (u, r2) =>
                      if ((0xD800 <=? u) && (u <=? 0xDBFF))%N then
                        match r2 with
                        | String b1 (String b2 r3) =>
                            if Ascii.eqb b1 backslash && Ascii.eqb b2 "u" then
                              match read_hex4 r3 with
                              | Some (u2, r4) =>
                                  if ((0xDC00 <=? u2) && (u2 <=? 0xDFFF))%N
                                  then prepend
                                         (utf8_of_cp (0x10000 + (u - 0xD800) * 1024
                                                      + (u2 - 0xDC00))%N)
                                         (read_string f r4)
                                  else None
                              | None => None
                              end
                            else None
                        | _ => None
                        end
                      else if ((0xDC00 <=? u) && (u <=? 0xDFFF))%N then None
                      else prepend (utf8_of_cp u) (read_string f r2)
                  end
                else
                  match simple_escape e with
                  | Some ch => prepend (String ch EmptyString) (read_string f r')
                  | None => None
                  end
            end
          else if (N_of_ascii c <? 32)%N then None
          else prepend (String c EmptyString) (read_string f r)
      end
  end.

Definition is_digit (c : ascii) : bool :=
  (48 <=? nat_of_ascii c)%nat && (nat_of_ascii c <=? 57)%nat.

(** The longest run of digits at the head of [s]. *)
Fixpoint read_digits (s : string) : string * string :=
  match s with
  | String c r =>
      if is_digit c
      then let (t, rest) := read_digits r in (String c t, rest)
      else (EmptyString, s)
  | EmptyString => (EmptyString, s)
  end.

Fixpoint digits_value (acc : Z) (s : string) : option Z :=
  match s with
  | EmptyString => Some acc
  | String c r =>
      if is_digit c
      then digits_value (10 * acc + Z.of_nat (nat_of_ascii c - 48)) r
      else None
  end.

(** The integer part of a number: a lone zero, or digits that do not start
    with a zero. *)
Definition read_int_part (s : string) : option (string * string) :=
  match s with
  | String c r =>
      if Ascii.eqb c "0" then Some ("0", r)
      else if is_digit c then let (t, rest) := read_digits r in Some (String c t, rest)
      else None
  | EmptyString => None
  end.

(** The fraction of a number, with its point: empty when no digit follows
    the point. *)
Definition read_frac (s : string) : string * string :=
  match s with
  | String c r =>
      if Ascii.eqb c "." then
        match read_digits r with
        | (EmptyString, _) => (EmptyString, s)
        | (t, rest) => (String c t, rest)
        end
      else (EmptyString, s)
  | EmptyString => (EmptyString, s)
  end.

(** The exponent of a number, with its letter and sign: empty when no digit
    follows them. *)
Definition read_exp (s : string) : string * string :=
  match s with
  | String c r =>
      if Ascii.eqb c "e" || Ascii.eqb c "E" then
        match r with
        | String g r' =>
            if Ascii.eqb g "+" || Ascii.eqb g "-" then
              match read_digits r' with
              | (EmptyString, _) => (EmptyString, s)
              | (t, rest) => (String c (String g t), rest)
              end
            else
              match read_digits r with
              | (EmptyString, _) => (EmptyString, s)
              | (t, rest) => (String c t, rest)
              end
        | EmptyString => (EmptyString, s)
        end
      else (EmptyString, s)
  | EmptyString => (EmptyString, s)
  end.

(** A number at the head of [s]: an integer, or a float when it has a
    fraction or an exponent.  The float is kept as its literal, which is its
    [repr] for the literals [json.dumps] prints. *)
Definition read_number (s : string) : option (json * string) :=
  let (sign, s1) :=
    match s with
    | String c r => if Ascii.eqb c "-" then ("-", r) else (EmptyString, s)
    | EmptyString => (EmptyString, s)
    end in
  match read_int_part s1 with
  | None => None
  | Some (ip, s2) =>
      let (fp, s3) := read_frac s2 in
      let (ep, s4) := read_exp s3 in
      match fp, ep with
      | EmptyString, EmptyString =>
          match digits_value 0 ip with
          | Some n => Some (JInt (if String.eqb sign "-" then - n else n), s4)
          | None => None
          end
      | _, _ => Some (JFloat (sign +:+ ip +:+ fp +:+ ep), s4)
      end
  end.

(** [dict(pairs)]: a key met again keeps its place and takes the later
    value. *)
Fixpoint without (k : string) (ps : list (string * json)) : list (string * json) :=
  match ps with
  | [] => []
  | (k', v) :: rest => if String.eqb k k' then without k rest else (k', v) :: without k rest
  end.

Fixpoint later_value (k : string) (ps : list (string * json)) : option json :=
  match ps with
  | [] => None
  | (k', v) :: rest => if String.eqb k k' then Some v else later_value k rest
  end.

Definition add_member (k : string) (v : json) (ps : list (string * json))
  : list (string * json) :=
  match later_value k ps with
  | Some v' => (k, v') :: without k ps
  | None => (k, v) :: ps
  end.

Fixpoint read_value (fuel : nat) (s : string) : option (json * string) :=
  match fuel with
  | O => None
  | S f =>
      match skip_ws s with
      | EmptyString => None
      | String c r =>
          if Ascii.eqb c "{" then
            match skip_ws r with
            | String c' r' =>
                if Ascii.eqb c' "}" then Some (JObj [], r')
                else match read_members f r with
                     | Some (ps, rest) => Some (JObj ps, rest)
                     | None => None
                     end
            | EmptyString => None
            end
          else if Ascii.eqb c "[" then
            match skip_ws r with
            | String c' r' =>
                if Ascii.eqb c' "]" then Some (JArr [], r')
                else match read_elements f r with
                     | Some (vs, rest) => Some (JArr vs, rest)
                     | None => None
                     end
            | EmptyString => None
            end
          else if Ascii.eqb c dquote then
            match read_string (S (String.length r)) r with
            | Some (t, rest) => Some (JStr t, rest)
            | None => None
            end
          else
            match strip_prefix "true" (String c r), strip_prefix "false" (String c r),
                  strip_prefix "null" (String c r) with
            | Some rest, _, _ => Some (JBool true, rest)
            | _, Some rest, _ => Some (JBool false, rest)
            | _, _, Some rest => Some (JNull, rest)
            | None, None, None =>
                match strip_prefix "NaN" (String c r),
                      strip_prefix "Infinity" (String c r),
                      strip_prefix "-Infinity" (String c r) with
                | Some rest, _, _ => Some (JFloat "nan", rest)
                | _, Some rest, _ => Some (JFloat "inf", rest)
                | _, _, Some rest => Some (JFloat "-inf", rest)
                | None, None, None => read_number (String c r)
                end
            end
      end
  end
with read_elements (fuel : nat) (s : string) : option (list json * string) :=
  match fuel with
  | O => None
  | S f =>
      match read_value f s with
      | Some (v, r) =>
          match skip_ws r with
          | String c r' =>
              if Ascii.eqb c "," then
                match read_elements f r' with
                | Some (vs, rest) => Some (v :: vs, rest)
                | None => None
                end
              else if Ascii.eqb c "]" then Some ([v], r')
              else None
          | EmptyString => None
          end
      | None => None
      end
  end
with read_members (fuel : nat) (s : string) : option (list (string * json) * string) :=
  match fuel with
  | O => None
  | S f =>
      match skip_ws s with
      | String q r =>
          if Ascii.eqb q dquote then
            match read_string (S (String.length r)) r with
            | Some (k, r1) =>
                match skip_ws r1 with
                | String c r2 =>
                    if Ascii.eqb c ":" then
                      match read_value f r2 with
                      | Some (v, r3) =>
                          match skip_ws r3 with
                          | String c' r4 =>
                              if Ascii.eqb c' "," then
                                match read_members f r4 with
                                | Some (ps, rest) => Some (add_member k v ps, rest)
                                | None => None
                                end
                              else if Ascii.eqb c' "}" then Some ([(k, v)], r4)
                              else None
                          | EmptyString => None
                          end
                      | None => None
                      end
                    else None
                | EmptyString => None
                end
            | None => None
            end
          else None
      | EmptyString => None
      end
  end.

Definition loads (s : string) : option json :=
  match read_value (2 * String.length s + 2) s with
  | Some (v, rest) =>
      match skip_ws rest with
      | EmptyString => Some v
      | String _ _ => None
      end
  | None => None
  end.

(** The decimal a float [repr] writes, as a mantissa and a power of ten. *)
Definition decimal_of (repr : string) : option (Z * Z) :=
  let (negative, s1) :=
    match repr with
    | String c r => if Ascii.eqb c "-" then (true, r) else (false, repr)
    | EmptyString => (false, repr)
    end in
  match read_digits s1 with
  | (EmptyString, _) => None
  | (ip, s2) =>
      let (fp, s3) := read_frac s2 in
      let (ep, s4) := read_exp s3 in
      let frac := match fp with String _ d => d | EmptyString => EmptyString end in
      let exponent :=
        match ep with
        | String _ (String g d) =>
            if Ascii.eqb g "-" then option_map Z.opp (digits_value 0 d)
            else if Ascii.eqb g "+" then digits_value 0 d
            else digits_value 0 (String g d)
        | _ => Some 0
        end in
      match s4, digits_value 0 (ip +:+ frac), exponent with
      | EmptyString, Some m, Some e =>
          Some (if negative then - m else m, e - Z.of_nat (String.length frac))
      | _, _, _ => None
      end
  end.

(** [x < n] for the float [x] of the given [repr]: the [repr] of a float is
    below an integer exactly when the float is. *)
Definition float_lt (repr : string) (n : Z) : bool :=
  if String.eqb repr "-inf" then true
  else
    match decimal_of repr with
    | Some (m, e) => if 0 <=? e then m * 10 ^ e <? n else m <? n * 10 ^ (- e)
    | None => false
    end.

(** One Latin-1 byte as the UTF-8 bytes of its code point. *)
Definition latin1_char (b : byte) : Py.bytes :=
  let n := Byte.to_N b in
  if (n <? 0x80)%N then [b]
  else if (n <? 0xC0)%N then [xc2; b]
  else match Byte.of_N (n - 0x40) with
       | Some b' => [xc3; b']
       | None => []
       end.

Definition latin1 (bs : Py.bytes) : option string :=
  Some (String.string_of_list_byte (concat (map latin1_char bs))).

Definition codec (encoding : string) : option (Py.bytes -> option string) :=
  if String.eqb encoding "latin-1" || String.eqb encoding "iso-8859-1"
  then Some latin1
  else None.

Definition runtime : PyLib :=
  {| lib_dumps := dumps; lib_loads := loads; lib_codec := codec |}.

End Sample.

(** ** The mock server of [tests/test_client.py]

    [_MockHandler] run on the sample runtime, and the network a client sees
    when that server listens at [origin]. *)

Module MockServer.

Definition origin : string := "http://127.0.0.1:8080".

(** [_MockHandler.RESPONSES] *)
Definition RESPONSES (method path : string) : option (json * Z) :=
  if String.eqb method "GET" && String.eqb path "/api/monitoring"
  then Some (JObj [("metrics", JArr [])], 200)
  else if String.eqb method "GET" && String.eqb path "/api/health"
  then Some (JObj [("active_replicas", JInt 4)], 200)
  else if String.eqb method "GET" && String.eqb path "/api/deploy/status"
  then Some (JObj [("last_state", JStr "SUCCEEDED")], 200)
  else None.

(** [_write_json]: the status line and the body put on the wire. *)
Definition _write_json (payload : json) (status : Z) : Z * Py.bytes :=
  (status, Py.encode_utf8 (Sample.dumps payload)).

Definition do_GET (path : string) : Z * Py.bytes :=
  match RESPONSES "GET" path with
  | Some (payload, status) => _write_json payload status
  | None => _write_json (JObj [("error", JStr "not found")]) 404
  end.

(** [d.get(key, default)] *)
Fixpoint dict_get (d : pydict) (key : string) (default : json) : json :=
  match d with
  | [] => default
  | (k, v) :: rest => if String.eqb k key then v else dict_get rest key default
  end.

(** [v < n] for a parsed JSON value, a float being compared by [float_lt];
    [None] where Python raises [TypeError]. *)
Definition less_than (float_lt : string -> Z -> bool) (v : json) (n : Z) : option bool :=
  match v with
  | JInt k => Some (k <? n)
  | JBool b => Some ((if b then 1 else 0) <? n)
  | JFloat r => Some (float_lt r n)
  | JNull | JStr _ | JArr _ | JObj _ => None
  end.

(** [do_POST] on the path and the body received ([None] or empty when
    Content-Length is 0).  It answers with a status and a body, or raises
    before it answers. *)
Definition do_POST (path : string) (content : option Py.bytes) : result (Z * Py.bytes) :=
  let data :=
    match content with
    | Some (b :: bs) =>
        if Py.utf8_valid (b :: bs) then Return (String.string_of_list_byte (b :: bs))
        else Raise UnicodeDecodeError
    | _ => Return "{}"
    end in
  match data with
  | Raise e => Raise e
  | Return text =>
      match Sample.loads text with
      | None => Raise JSONDecodeError
      | Some payload =>
          if String.eqb path "/api/autoscale/plan" then
            match payload with
            | JObj d =>
                match less_than Sample.float_lt (dict_get d "replicas" (JInt 4)) 6 with
                | Some small =>
                    Return (_write_json
                              (JObj [("decision",
                                      JStr (if small then "scale-up" else "no-op"))])
                              200)
                | None => Raise (OtherError "TypeError")
                end
            | _ => Raise (OtherError "AttributeError")
            end
          else if String.eqb path "/api/deploy/plan" then
            match payload with
            | JObj d =>
                Return (_write_json
                          (JObj [("plan",
                                  JArr [JStr "scale";
                                        dict_get d "desired_replicas" (JInt 4)])])
                          200)
            | _ => Raise (OtherError "AttributeError")
            end
          else if String.eqb path "/api/deploy/apply" then
            Return (_write_json (JObj [("status", JStr "applied")]) 200)
          else Return (_write_json (JObj [("error", JStr "unsupported")]) 404)
      end
  end.

Definition reason_phrase (status : Z) : string :=
  if status =? 200 then "OK"
  else if status =? 404 then "Not Found"
  else "".

(** What [urlopen] makes of a reply: a status in 200..299 is handed back as
    the response, any other is raised as an [HTTPError] whose [fp] is the
    reply. *)
Definition http_reply (reply : Z * Py.bytes) : result Response :=
  let (code, content) := reply in
  if (200 <=? code) && (code <? 300)
  then Return {| status := code; content_charset := None; body := content |}
  else Raise (HTTPError code (reason_phrase code) (Some content)).

(** The network with the mock server at [origin] and nothing elsewhere. *)
Definition serve (n : nat) (request : Request) (t : Z) : result Response :=
  match Sample.strip_prefix origin (full_url request) with
  | None => Raise (URLError "[Errno 111] Connection refused")
  | Some path =>
      if String.eqb (req_method request) "GET" then http_reply (do_GET path)
      else
        match do_POST path (req_body request) with
        | Return reply => http_reply reply
        | Raise _ => Raise (OtherError "RemoteDisconnected")
        end
  end.

(** [setUp]: the client of the tests, before any call. *)
Definition setUp : world :=
  {| client := {| base_url := origin; api_key := Some "test"; timeout := 10 |};
     network := serve;
     sent := [] |}.

End MockServer.

(** A network that gives every invocation the same outcome. *)
Definition always (r : result Response) : nat -> Request -> Z -> result Response :=
  fun _ _ _ => r.

(** A client of its own in front of a network, before any call. *)
Definition fresh (c : HyperionClient) (net : nat -> Request -> Z -> result Response) : world :=
  {| client := c; network := net; sent := [] |}.


(** ** Sample stores *)

(** A client whose base address ends in separators and carries a prefix the
    mock server does not serve. *)
Definition versioned_client : world :=
  fresh {| base_url := MockServer.origin +:+ "/v2//"; api_key := None; timeout := 10 |}
        MockServer.serve.

(** A client pointed at an address where nothing listens. *)
Definition stray_client : world :=
  fresh (new_client "http://10.0.0.1:9") MockServer.serve.


(** A server that answers 200 with the JSON array [[1, 2]]. *)
Definition array_server : world :=
  fresh (new_client "http://h")
        (always (Return {| status := 200; content_charset := None;
                           body := Py.encode_utf8 "[1, 2]" |})).

(** A server that answers 500 with the single byte 0xFF as its body. *)
Definition garbled_server : world :=
  fresh (new_client "http://h")
        (always (Raise (HTTPError 500 "Internal Server Error" (Some [xff])))).

(** The client of the tests with the empty string as its credential. *)
Definition empty_key_client : world :=
  fresh {| base_url := MockServer.origin; api_key := Some ""; timeout := 10 |}
        MockServer.serve.

(** ** Vocabulary of the statements *)

(** The first request a computation started in [w] hands to [urlopen], with
    the timeout it passes. *)
Definition first_sent {A} (m : py A) (w : world) : option (Request * Z) :=
  head (sent_by m w).

(** The answer of the network to the next invocation made in [w]. *)
Definition answer (w : world) (request : Request) (t : Z) : result Response :=
  network w (length (sent w)) request t.

(** Remote rejection, read for every error response: whatever the body of
    the response, the call raises the client's error, with the status code,
    the verb, the path and the detail in its message. *)
Definition remote_rejection_for_every_body {lib : PyLib}
    (op : operation) (w : world) : Prop :=
  forall request t code reason fp,
    first_sent (call op) w = Some (request, t) ->
    answer w request t = Raise (HTTPError code reason fp) ->
    400 <= code ->
    exists msg,
      fst (call op w) = Raise (HyperionClientError msg)
      /\ Py.contains msg (Py.str_of_int code)
      /\ Py.contains msg (verb_of op +:+ " " +:+ path_of op)
      /\ match fp with
         | Some content =>
             forall text, bytes_decode "utf-8" content = Return text ->
                          Py.contains msg text
         | None => Py.contains msg reason
         end.

(** The credential header, read for every configured credential: the header
    is there with the credential exactly when [api_key] holds one. *)
Definition credential_header_for_every_key {lib : PyLib}
    (op : operation) (w : world) : Prop :=
  exists request,
    sent_by (call op) w = [(request, timeout (client w))]
    /\ req_headers request !! "Content-Type" = Some "application/json"
    /\ (forall key, req_headers request !! "X-API-Key" = Some key
                    <-> api_key (client w) = Some key)
    /\ (api_key (client w) = None -> req_headers request !! "X-API-Key" = None).

(** ** The handler of the tests over any runtime

    [_MockHandler] of [tests/test_client.py] written against the runtime
    interface, as the client is.  The comparison [replicas < 6] of a float
    is left to the runtime: [float_lt r n] is [x < n] for the float [x]
    whose [repr] is [r]. *)

Module Handler.

Section Handler.

Context {lib : PyLib}.

Variable float_lt : string -> Z -> bool.

(** [_write_json(payload, status)]: the status and the body sent. *)
Definition _write_json (payload : json) (status : Z) : Z * Py.bytes :=
  (status, Py.encode_utf8 (json_dumps payload)).

(** [do_GET]: the entry of [RESPONSES] for the path, or the 404 default. *)
Definition do_GET (path : string) : Z * Py.bytes :=
  match MockServer.RESPONSES "GET" path with
  | Some (payload, status) => _write_json payload status
  | None => _write_json (JObj [("error", JStr "not found")]) 404
  end.

(** [do_POST] on the path and the body received ([None] or empty when
    Content-Length is 0).  It answers with a status and a body, or raises
    before it answers. *)
Definition do_POST (path : string) (content : option Py.bytes) : result (Z * Py.bytes) :=
  match match content with
        | Some (b :: bs) => bytes_decode "utf-8" (b :: bs)
        | Some [] | None => Return "{}"
        end with
  | Raise e => Raise e
  | Return data =>
      match json_loads data with
      | Raise e => Raise e
      | Return payload =>
          if String.eqb path "/api/autoscale/plan" then
            match payload with
            | JObj d =>
                match MockServer.less_than float_lt
                        (MockServer.dict_get d "replicas" (JInt 4)) 6 with
                | Some small =>
                    Return (_write_json
                              (JObj [("decision",
                                      JStr (if small then "scale-up" else "no-op"))])
                              200)
                | None => Raise (OtherError "TypeError")
                end
            | _ => Raise (OtherError "AttributeError")
            end
          else if String.eqb path "/api/deploy/plan" then
            match payload with
            | JObj d =>
                Return (_write_json
                          (JObj [("plan",
                                  JArr [JStr "scale";
                                        MockServer.dict_get d "desired_replicas" (JInt 4)])])
                          200)
            | _ => Raise (OtherError "AttributeError")
            end
          else if String.eqb path "/api/deploy/apply" then
            Return (_write_json (JObj [("status", JStr "applied")]) 200)
          else Return (_write_json (JObj [("error", JStr "unsupported")]) 404)
      end
  end.

(** What [urlopen] gets for a GET of [path] from the server. *)
Definition answers_GET (path : string) : result Response :=
  MockServer.http_reply (do_GET path).

(** What [urlopen] gets for a POST of [content] to [path]: the reply, or a
    dropped connection when the handler raised. *)
Definition answers_POST (path : string) (content : option Py.bytes) : result Response :=
  match do_POST path content with
  | Return reply => MockServer.http_reply reply
  | Raise _ => Raise (OtherError "RemoteDisconnected")
  end.

End Handler.

End Handler.

(** A value that survives the wire: [json.dumps] prints it as a non-empty
    UTF-8 text and [json.loads] reads that text back as the value. *)
Definition transmits {lib : PyLib} (v : json) : Prop :=
  Py.utf8_valid (Py.encode_utf8 (json_dumps v)) = true
  /\ json_dumps v <> ""
  /\ json_loads (json_dumps v) = Return v.

(** A text that travels as it is: non-empty and well-formed UTF-8. *)
Definition travels (s : string) : Prop :=
  Py.utf8_valid (Py.encode_utf8 s) = true /\ s <> "".

(** The read operations. *)
Definition read_operations : list operation :=
  [GetMonitoringSnapshot; GetHealth; DeploymentStatus].

(** ** More sample stores *)

(** A server that answers 200 with a text that is not JSON. *)
Definition chatty_server : world :=
  fresh (new_client "http://h")
        (always (Return {| status := 200; content_charset := None;
                           body := Py.encode_utf8 "<html>ok</html>" |})).

(** A server that answers 200 with the single byte 0xFF. *)
Definition noisy_server : world :=
  fresh (new_client "http://h")
        (always (Return {| status := 200; content_charset := None; body := [xff] |})).

(** A server that answers 404 with an empty body. *)
Definition terse_server : world :=
  fresh (new_client "http://h")
        (always (Raise (HTTPError 404 "Not Found" (Some [])))).

(** A server that accepts the request and never answers in time. *)
Definition slow_server : world :=
  fresh (new_client "http://h")
        (always (Raise (OtherError "TimeoutError"))).


(** ** The request of an operation, and its answer *)

(** The headers [_request] passes to [Request] for a client. *)
Definition headers_of (c : HyperionClient) : gmap string string :=
  match api_key c with
  | Some key =>
      if Py.truthy key
      then <[ "X-API-Key" := key ]> {[ "Content-Type" := "application/json" ]}
      else {[ "Content-Type" := "application/json" ]}
  | None => {[ "Content-Type" := "application/json" ]}
  end.

(** The request an operation builds for a client: what [_request] passes to
    [Request] at the verb, the path and the data of the operation. *)
Definition request_of {lib : PyLib} (c : HyperionClient) (op : operation) : Request :=
  {| full_url := Py.rstrip_slash (base_url c) +:+ path_of op;
     req_body := match data_of op with
                 | Some d => Some (Py.encode_utf8 (json_dumps (JObj d)))
                 | None => None
                 end;
     req_headers := headers_of c;
     req_method := verb_of op |}.

(** What the network does with the request of an operation made in [w]. *)
Definition reply {lib : PyLib} (op : operation) (w : world) : result Response :=
  answer w (request_of (client w) op) (timeout (client w)).

(** The one exchange of an operation made in [w]. *)
Definition exchange {lib : PyLib} (op : operation) (w : world) : list (Request * Z) :=
  [(request_of (client w) op, timeout (client w))].

(** The ways a request fails to get its answer, and what [urlopen] raises
    for each of them: it wraps in [URLError] what goes wrong while it
    connects and sends, and lets the timeout of the wait for the response
    through as it is. *)
Inductive transport_failure : Type :=
| ConnectionRefused
| NameNotResolved
| ConnectTimeout
| ReadTimeout.

Definition raised_for (f : transport_failure) : exn :=
  match f with
  | ConnectionRefused => URLError "[Errno 111] Connection refused"
  | NameNotResolved => URLError "[Errno -2] Name or service not known"
  | ConnectTimeout => URLError "timed out"
  | ReadTimeout => OtherError "TimeoutError"
  end.

(** Transport failure, read for every cause: whichever way the request
    fails to get its answer, the call raises the client's error with the
    address in its message, after one invocation at most. *)
Definition transport_failure_for_every_cause {lib : PyLib}
    (op : operation) (w : world) : Prop :=
  forall f,
    reply op w = Raise (raised_for f) ->
    exists msg,
      fst (call op w) = Raise (HyperionClientError msg)
      /\ Py.contains msg (full_url (request_of (client w) op))
      /\ (length (sent_by (call op) w) <= 1)%nat.

(** The characters of a path that reaches the handler as it is written:
    letters, digits, and the slash, hyphen, underscore and point. *)
Definition plain_char (c : ascii) : bool :=
  let n := nat_of_ascii c in
  ((48 <=? n) && (n <=? 57) || (65 <=? n) && (n <=? 90) || (97 <=? n) && (n <=? 122)
   || (n =? 45) || (n =? 46) || (n =? 47) || (n =? 95))%nat.

Fixpoint plain (s : string) : bool :=
  match s with
  | EmptyString => true
  | String c r => plain_char c && plain r
  end.

(** A store whose network is the server of the tests: a request for a plain
    path under [origin] is answered as the handler of its verb answers. *)
Definition served {lib : PyLib} (float_lt : string -> Z -> bool) (w : world) : Prop :=
  forall n request t rest,
    plain rest = true ->
    full_url request = MockServer.origin +:+ String "/" rest ->
    (req_method request = "GET" ->
     network w n request t = Handler.answers_GET (String "/" rest))
    /\ (req_method request = "POST" ->
        network w n request t
        = Handler.answers_POST float_lt (String "/" rest) (req_body request)).

(** A 307 answer to a POST, which [urlopen] does not follow. *)
Definition redirecting_server : world :=
  fresh (new_client "http://h")
        (always (Raise (HTTPError 307 "Temporary Redirect"
                          (Some (Py.encode_utf8 "moved to /v2"))))).

(** * Properties *)

(** ** Text *)

Lemma append_assoc (a b c : string) : (a +:+ b) +:+ c = a +:+ b +:+ c.
Proof. induction a as [| x a IH]; cbn; [reflexivity | now rewrite IH]. Qed.

Lemma append_empty_r (a : string) : a +:+ "" = a.
Proof. induction a as [| x a IH]; cbn; [reflexivity | now rewrite IH]. Qed.

Lemma contains_refl (s : string) : Py.contains s s.
Proof. exists "", "". cbn. now rewrite append_empty_r. Qed.

Lemma contains_append_r (p t s : string) : Py.contains t s -> Py.contains (p +:+ t) s.
Proof.
  intros (pre & post & ->). exists (p +:+ pre), post. now rewrite append_assoc.
Qed.

Lemma contains_append_l (t q s : string) : Py.contains t s -> Py.contains (t +:+ q) s.
Proof.
  intros (pre & post & ->). exists pre, (post +:+ q).
  now rewrite !append_assoc.
Qed.

Lemma contains_prefix (s q : string) : Py.contains (s +:+ q) s.
Proof. apply contains_append_l, contains_refl. Qed.

Lemma truthy_false (s : string) : Py.truthy s = false <-> s = "".
Proof. destruct s; cbn; split; congruence. Qed.

Lemma truthy_true (s : string) : Py.truthy s = true <-> s <> "".
Proof. destruct s; cbn; split; congruence. Qed.

Lemma rstrip_slash_slashes (n : nat) : Py.rstrip_slash (Py.slashes n) = "".
Proof. induction n as [| n IH]; cbn; [reflexivity | now rewrite IH]. Qed.

Lemma rstrip_slash_append (s : string) (n : nat) :
  Py.rstrip_slash (s +:+ Py.slashes n) = Py.rstrip_slash s.
Proof.
  induction s as [| c s IH]; cbn.
  - apply rstrip_slash_slashes.
  - now rewrite IH.
Qed.

Lemma rstrip_slash_decompose (s : string) :
  exists n, s = Py.rstrip_slash s +:+ Py.slashes n.
Proof.
  induction s as [| c s [n IH]]; cbn.
  - now exists O.
  - destruct (Py.rstrip_slash s) as [| d r] eqn:E.
    + destruct (Ascii.eqb_spec c "/") as [-> | Hc].
      * exists (S n). cbn in IH |- *. congruence.
      * exists n. cbn in IH |- *. congruence.
    + exists n. cbn in IH |- *. congruence.
Qed.

Lemma rstrip_slash_no_trailing (s : string) :
  ~ Py.ends_with_slash (Py.rstrip_slash s).
Proof.
  induction s as [| c s IH]; cbn; intros [p Hp].
  - destruct p; discriminate.
  - destruct (Py.rstrip_slash s) as [| d r] eqn:E.
    + destruct (Ascii.eqb_spec c "/") as [-> | Hc].
      * destruct p; discriminate.
      * destruct p as [| x p]; cbn in Hp.
        -- injection Hp as ->. congruence.
        -- injection Hp as -> Hp. destruct p; discriminate.
    + destruct p as [| x p]; cbn in Hp.
      * discriminate.
      * injection Hp as -> Hp. apply IH. now exists p.
Qed.

(** ** One call is one exchange *)

Section Exchange.

Context {lib : PyLib}.

Lemma bytes_decode_empty (encoding : string) :
  bytes_decode encoding [] = Return "".
Proof. reflexivity. Qed.

Lemma bytes_decode_utf8 (b : Py.bytes) :
  Py.utf8_valid b = true ->
  bytes_decode "utf-8" b = Return (String.string_of_list_byte b).
Proof.
  intros Hb. destruct b as [| x b]; [reflexivity |].
  unfold bytes_decode. now rewrite String.eqb_refl, Hb.
Qed.

Lemma bytes_decode_not_utf8 (b : Py.bytes) :
  Py.utf8_valid b = false -> bytes_decode "utf-8" b = Raise UnicodeDecodeError.
Proof.
  intros Hb. destruct b as [| x b]; [discriminate |].
  unfold bytes_decode. now rewrite String.eqb_refl, Hb.
Qed.

(** [bytes.decode] raises nothing but the two decoding errors. *)
Lemma bytes_decode_raises (encoding : string) (b : Py.bytes) (e : exn) :
  bytes_decode encoding b = Raise e ->
  e = UnicodeDecodeError \/ e = LookupError encoding.
Proof.
  unfold bytes_decode. destruct b as [| x b]; [discriminate |].
  destruct (String.eqb encoding "utf-8").
  - destruct (Py.utf8_valid (x :: b)); [discriminate | intros [= <-]; now left].
  - destruct (lib_codec encoding) as [decoder |].
    + destruct (decoder (x :: b)); [discriminate | intros [= <-]; now left].
    + intros [= <-]. now right.
Qed.

(** Every operation is [_request] at the verb, path and body of the table. *)
Lemma call_request (op : operation) :
  call op = _request (path_of op) (verb_of op) (data_of op).
Proof. destruct op as [| | [n |] | | |]; reflexivity. Qed.

(** [_request] hands one request to [urlopen], and its outcome is decided by
    what the network does with that request. *)
Lemma _request_run (path method : string) (data : option pydict) (w : world) :
  exists request,
    full_url request = Py.rstrip_slash (base_url (client w)) +:+ path
    /\ req_method request = method
    /\ req_body request
       = match data with
         | Some d => Some (Py.encode_utf8 (json_dumps (JObj d)))
         | None => None
         end
    /\ req_headers request
       = match api_key (client w) with
         | Some key =>
             if Py.truthy key
             then <[ "X-API-Key" := key ]> {[ "Content-Type" := "application/json" ]}
             else {[ "Content-Type" := "application/json" ]}
         | None => {[ "Content-Type" := "application/json" ]}
         end
    /\ _request path method data w
       = (match network w (length (sent w)) request (timeout (client w)) with
         | Return response =>
             match bytes_decode (charset_of response) (body response) with
             | Return payload =>
                 if Py.truthy payload then json_loads payload else Return (JObj [])
             | Raise e => Raise e
             end
         | Raise (HTTPError code reason fp) =>
             match match fp with
                   | Some content => bytes_decode "utf-8" content
                   | None => Return reason
                   end with
             | Return detail =>
                 Raise (HyperionClientError
                          ("HTTP " +:+ Py.str_of_int code +:+ " for " +:+ method
                           +:+ " " +:+ path +:+ ": " +:+ detail))
             | Raise e => Raise e
             end
         | Raise (URLError reason) =>
             Raise (HyperionClientError
                      ("Unable to reach Hyperion at " +:+ full_url request
                       +:+ ": " +:+ reason))
         | Raise other => Raise other
         end, logged w request).
Proof.
  exists {| full_url := Py.rstrip_slash (base_url (client w)) +:+ path;
            req_body := match data with
                        | Some d => Some (Py.encode_utf8 (json_dumps (JObj d)))
                        | None => None
                        end;
            req_headers :=
              match api_key (client w) with
              | Some key =>
                  if Py.truthy key
                  then <[ "X-API-Key" := key ]> {[ "Content-Type" := "application/json" ]}
                  else {[ "Content-Type" := "application/json" ]}
              | None => {[ "Content-Type" := "application/json" ]}
              end;
            req_method := method |}.
  do 4 (split; [reflexivity |]).
  unfold _request, bind, try_except, urlopen, get_self, lift, ret, raise, logged,
    charset_of.
  cbn [fst snd client network sent full_url].
  match goal with
  | |- (let (_, _) := match ?n with _ => _ end in _) = _ =>
      destruct n as [response | exc]
  end.
  - destruct (bytes_decode _ (body response)) as [payload | e] eqn:E.
    + destruct (Py.truthy payload); cbn; [| reflexivity].
      unfold json_loads. now destruct (lib_loads payload).
    + now destruct (bytes_decode_raises _ _ _ E) as [-> | ->].
  - destruct exc as [| code reason [content |] | | | | |]; try reflexivity.
    now destruct (bytes_decode "utf-8" content).
Qed.

End Exchange.

(** ** The six operations *)

Section Operations.

Context {lib : PyLib}.

(** The exchange of an operation: the one request it sends and how its
    outcome follows from the answer. *)
Lemma call_run (op : operation) (w : world) :
  exists request,
    full_url request = Py.rstrip_slash (base_url (client w)) +:+ path_of op
    /\ req_method request = verb_of op
    /\ req_body request
       = match data_of op with
         | Some d => Some (Py.encode_utf8 (json_dumps (JObj d)))
         | None => None
         end
    /\ req_headers request
       = match api_key (client w) with
         | Some key =>
             if Py.truthy key
             then <[ "X-API-Key" := key ]> {[ "Content-Type" := "application/json" ]}
             else {[ "Content-Type" := "application/json" ]}
         | None => {[ "Content-Type" := "application/json" ]}
         end
    /\ sent_by (call op) w = [(request, timeout (client w))]
    /\ snd (call op w) = logged w request
    /\ fst (call op w)
       = match answer w request (timeout (client w)) with
         | Return response =>
             match bytes_decode (charset_of response) (body response) with
             | Return payload =>
                 if Py.truthy payload then json_loads payload else Return (JObj [])
             | Raise e => Raise e
             end
         | Raise (HTTPError code reason fp) =>
             match match fp with
                   | Some content => bytes_decode "utf-8" content
                   | None => Return reason
                   end with
             | Return detail =>
                 Raise (HyperionClientError
                          ("HTTP " +:+ Py.str_of_int code +:+ " for " +:+ verb_of op
                           +:+ " " +:+ path_of op +:+ ": " +:+ detail))
             | Raise e => Raise e
             end
         | Raise (URLError reason) =>
             Raise (HyperionClientError
                      ("Unable to reach Hyperion at " +:+ full_url request
                       +:+ ": " +:+ reason))
         | Raise other => Raise other
         end.
Proof.
  rewrite call_request.
  destruct (_request_run (path_of op) (verb_of op) (data_of op) w)
    as (request & Hurl & Hverb & Hbody & Hheaders & Hrun).
  exists request. unfold sent_by, answer. rewrite Hrun. cbn [fst snd logged sent].
  rewrite drop_app_length. auto 10.
Qed.

(** The request named by [first_sent] is the one of [call_run]. *)
Lemma first_sent_inv (op : operation) (w : world) (request r : Request) (t : Z) :
  sent_by (call op) w = [(r, timeout (client w))] ->
  first_sent (call op) w = Some (request, t) ->
  request = r /\ t = timeout (client w).
Proof. unfold first_sent. intros ->. cbn. now intros [= -> ->]. Qed.

(** The exchange of an operation in terms of its request: the operation
    sends [request_of], once, and its outcome follows from the reply. *)
Lemma call_exchange (op : operation) (w : world) :
  sent_by (call op) w = exchange op w
  /\ snd (call op w) = logged w (request_of (client w) op)
  /\ fst (call op w)
     = match reply op w with
       | Return response =>
           match bytes_decode (charset_of response) (body response) with
           | Return payload =>
               if Py.truthy payload then json_loads payload else Return (JObj [])
           | Raise e => Raise e
           end
       | Raise (HTTPError code reason fp) =>
           match match fp with
                 | Some content => bytes_decode "utf-8" content
                 | None => Return reason
                 end with
           | Return detail =>
               Raise (HyperionClientError
                        ("HTTP " +:+ Py.str_of_int code +:+ " for " +:+ verb_of op
                         +:+ " " +:+ path_of op +:+ ": " +:+ detail))
           | Raise e => Raise e
           end
       | Raise (URLError reason) =>
           Raise (HyperionClientError
                    ("Unable to reach Hyperion at "
                     +:+ full_url (request_of (client w) op) +:+ ": " +:+ reason))
       | Raise other => Raise other
       end.
Proof.
  destruct (call_run op w) as (r & Hu & Hv & Hb & Hh & Hsent & Hworld & Hrun).
  assert (r = request_of (client w) op) as ->.
  { destruct r. unfold request_of, headers_of.
    cbn [full_url req_body req_headers req_method] in *. congruence. }
  unfold exchange, reply. auto.
Qed.

(** C1. For each of the six operations, when the server answers the request
    of the operation with status 200 and a body that decodes to a non-empty
    JSON text, the operation has sent that request, once, and returns the
    value [json.loads] parses from the text. *)
Theorem success_returns_parsed_json
    (op : operation) (w : world)
    (response : Response) (payload : string) (value : json) :
  reply op w = Return response ->
  status response = 200 ->
  bytes_decode (charset_of response) (body response) = Return payload ->
  payload <> "" ->
  json_loads payload = Return value ->
  sent_by (call op) w = exchange op w
  /\ fst (call op w) = Return value.
Proof.
  intros Hreply _ Hdecode Hnonempty Hloads.
  destruct (call_exchange op w) as (Hsent & _ & Hrun).
  split; [exact Hsent |].
  rewrite Hrun, Hreply, Hdecode.
  apply truthy_true in Hnonempty. now rewrite Hnonempty.
Qed.


(** C10. For every operation, when the server answers the request of the
    operation with status 200 and a non-empty body that is valid JSON but
    not an object, the operation has sent that request, once, and returns
    the parsed value, which is not a mapping; no exception is raised. *)
Theorem non_object_json_is_returned
    (op : operation) (w : world)
    (response : Response) (payload : string) (value : json) :
  reply op w = Return response ->
  status response = 200 ->
  bytes_decode (charset_of response) (body response) = Return payload ->
  payload <> "" ->
  json_loads payload = Return value ->
  is_object value = false ->
  sent_by (call op) w = exchange op w
  /\ fst (call op w) = Return value
  /\ forall pairs, fst (call op w) <> Return (JObj pairs).
Proof.
  intros Hreply _ Hdecode Hnonempty Hloads Hvalue.
  destruct (call_exchange op w) as (Hsent & _ & Hrun).
  split; [exact Hsent |].
  rewrite Hrun, Hreply, Hdecode.
  apply truthy_true in Hnonempty. rewrite Hnonempty, Hloads.
  split; [reflexivity |].
  intros pairs [= ->]. discriminate.
Qed.

(** C8. Every operation leaves the configuration of the client as it was:
    whether the call returns or raises, [base_url], [api_key] and [timeout]
    have the values they had before the call. *)
Theorem call_preserves_configuration (op : operation) (w : world) :
  base_url (client (snd (call op w))) = base_url (client w)
  /\ api_key (client (snd (call op w))) = api_key (client w)
  /\ timeout (client (snd (call op w))) = timeout (client w).
Proof.
  destruct (call_run op w) as (r & _ & _ & _ & _ & _ & Hworld & _).
  rewrite Hworld. cbn. auto.
Qed.

(** X12. An error body that is not UTF-8 makes the handler itself raise:
    the decoding error leaves the call in place of the client's error. *)
Lemma undecodable_error_body
    (op : operation) (w : world) (request : Request) (t : Z)
    (code : Z) (reason : string) (content : Py.bytes) :
  first_sent (call op) w = Some (request, t) ->
  answer w request t = Raise (HTTPError code reason (Some content)) ->
  Py.utf8_valid content = false ->
  fst (call op w) = Raise UnicodeDecodeError.
Proof.
  intros Hfirst Hanswer Hcontent.
  destruct (call_run op w) as (r & _ & _ & _ & _ & Hsent & _ & Hrun).
  destruct (first_sent_inv _ _ _ _ _ Hsent Hfirst) as [-> ->].
  now rewrite Hrun, Hanswer, bytes_decode_not_utf8.
Qed.

(** C2, amended. For every operation and every error response with status
    400 or more whose body is non-empty well-formed UTF-8 text, the call
    sends its request, once, and raises [HyperionClientError]; its message
    holds the status code, the verb and the path attempted, and the text of
    the error body. *)
Theorem remote_rejection_message
    (op : operation) (w : world)
    (code : Z) (reason : string) (content : Py.bytes) :
  reply op w = Raise (HTTPError code reason (Some content)) ->
  400 <= code ->
  content <> [] ->
  Py.utf8_valid content = true ->
  exists msg,
    sent_by (call op) w = exchange op w
    /\ fst (call op w) = Raise (HyperionClientError msg)
    /\ msg = "HTTP " +:+ Py.str_of_int code +:+ " for " +:+ verb_of op +:+ " "
             +:+ path_of op +:+ ": " +:+ String.string_of_list_byte content
    /\ Py.contains msg (Py.str_of_int code)
    /\ Py.contains msg (verb_of op +:+ " " +:+ path_of op)
    /\ Py.contains msg (String.string_of_list_byte content).
Proof.
  intros Hreply _ _ Htext.
  destruct (call_exchange op w) as (Hsent & _ & Hrun).
  rewrite Hrun, Hreply, (bytes_decode_utf8 _ Htext).
  eexists. split; [exact Hsent |]. split; [reflexivity |]. split; [reflexivity |].
  repeat split.
  - apply contains_append_r, contains_prefix.
  - exists ("HTTP " +:+ Py.str_of_int code +:+ " for "),
      (": " +:+ String.string_of_list_byte content).
    now rewrite !append_assoc.
  - do 7 apply contains_append_r. apply contains_refl.
Qed.

(** C3, amended. For every operation and every configuration the request
    carries [Content-Type: application/json]; it carries [X-API-Key] with
    the configured credential exactly when a non-empty credential is
    configured, and no [X-API-Key] header when none is configured. *)
Theorem credential_header
    (op : operation) (w : world) :
  exists request,
    sent_by (call op) w = [(request, timeout (client w))]
    /\ req_headers request !! "Content-Type" = Some "application/json"
    /\ (forall key, req_headers request !! "X-API-Key" = Some key
                    <-> api_key (client w) = Some key /\ key <> "")
    /\ (api_key (client w) = None -> req_headers request !! "X-API-Key" = None).
Proof.
  destruct (call_run op w) as (r & _ & _ & _ & Hheaders & Hsent & _).
  exists r. split; [exact Hsent |]. rewrite Hheaders.
  destruct (api_key (client w)) as [k |]; [destruct (Py.truthy k) eqn:Hk |].
  - apply truthy_true in Hk. split; [| split].
    + rewrite lookup_insert_ne by discriminate. apply lookup_singleton_eq.
    + intros key. rewrite lookup_insert_eq. split.
      * intros [= ->]. now split.
      * now intros [[= ->] _].
    + discriminate.
  - apply truthy_false in Hk. subst k. split; [| split].
    + apply lookup_singleton_eq.
    + intros key. rewrite lookup_singleton_ne by discriminate. split.
      * discriminate.
      * intros [[= <-] Hne]. congruence.
    + discriminate.
  - split; [| split].
    + apply lookup_singleton_eq.
    + intros key. rewrite lookup_singleton_ne by discriminate. split.
      * discriminate.
      * now intros [[=] _].
    + intros _. apply lookup_singleton_ne. discriminate.
Qed.

(** C5. [autoscale_plan] with [replicas] omitted sends a POST request with
    no body at all, hence no [replicas] key; with an integer it sends the
    serialized mapping [{"replicas": replicas}]. *)
Theorem autoscale_plan_body (replicas : option Z) (w : world) :
  exists request,
    sent_by (autoscale_plan replicas) w = [(request, timeout (client w))]
    /\ req_method request = "POST"
    /\ req_body request
       = match replicas with
         | Some n => Some (Py.encode_utf8 (json_dumps (JObj [("replicas", JInt n)])))
         | None => None
         end.
Proof.
  destruct (call_run (AutoscalePlan replicas) w)
    as (r & _ & Hverb & Hbody & _ & Hsent & _).
  exists r. split; [exact Hsent |]. split; [exact Hverb |].
  rewrite Hbody. now destruct replicas.
Qed.

(** C6, amended. For every operation, when the request cannot reach the
    server and the transport raises [URLError] for it, the call raises
    [HyperionClientError] with a message that holds the full URL and the
    cause, and the transport has been invoked once, with no retry. *)
Theorem transport_failure_is_reported
    (op : operation) (w : world) (reason : string) :
  reply op w = Raise (URLError reason) ->
  exists msg,
    fst (call op w) = Raise (HyperionClientError msg)
    /\ msg = "Unable to reach Hyperion at " +:+ full_url (request_of (client w) op)
             +:+ ": " +:+ reason
    /\ full_url (request_of (client w) op)
       = Py.rstrip_slash (base_url (client w)) +:+ path_of op
    /\ Py.contains msg (full_url (request_of (client w) op))
    /\ Py.contains msg reason
    /\ sent_by (call op) w = exchange op w
    /\ (length (sent_by (call op) w) <= 1)%nat.
Proof.
  intros Hreply.
  destruct (call_exchange op w) as (Hsent & _ & Hrun).
  rewrite Hrun, Hreply, Hsent.
  eexists. split; [reflexivity |]. split; [reflexivity |]. split; [reflexivity |].
  repeat split.
  - apply contains_append_r, contains_prefix.
  - do 3 apply contains_append_r. apply contains_refl.
  - cbn. lia.
Qed.

(** C7. For every configuration and every operation the URL of the request
    is the base address without its trailing separators followed by the
    path of the operation; hence two clients whose base addresses differ
    only in trailing separators send to the same URL. *)
Theorem request_url
    (op : operation) (w1 w2 : world) (stem : string) (n m : nat) :
  base_url (client w1) = stem +:+ Py.slashes n ->
  base_url (client w2) = stem +:+ Py.slashes m ->
  exists request1 request2 k,
    sent_by (call op) w1 = [(request1, timeout (client w1))]
    /\ sent_by (call op) w2 = [(request2, timeout (client w2))]
    /\ full_url request1 = Py.rstrip_slash (base_url (client w1)) +:+ path_of op
    /\ base_url (client w1) = Py.rstrip_slash (base_url (client w1)) +:+ Py.slashes k
    /\ ~ Py.ends_with_slash (Py.rstrip_slash (base_url (client w1)))
    /\ full_url request1 = full_url request2.
Proof.
  intros H1 H2.
  destruct (call_run op w1) as (r1 & Hurl1 & _ & _ & _ & Hsent1 & _).
  destruct (call_run op w2) as (r2 & Hurl2 & _ & _ & _ & Hsent2 & _).
  destruct (rstrip_slash_decompose (base_url (client w1))) as [k Hk].
  exists r1, r2, k. repeat split; try assumption.
  - apply rstrip_slash_no_trailing.
  - rewrite Hurl1, Hurl2, H1, H2. now rewrite !rstrip_slash_append.
Qed.

(** C9. A client built with the empty string as its credential sends no
    [X-API-Key] header: it sends the request, and gets the outcome, of a
    client built without a credential. *)
Theorem empty_credential_is_no_credential
    (op : operation) (url : string) (t : Z)
    (net : nat -> Request -> Z -> result Response) (log : list (Request * Z)) :
  let w_empty :=
    {| client := {| base_url := url; api_key := Some ""; timeout := t |};
       network := net; sent := log |} in
  let w_none :=
    {| client := {| base_url := url; api_key := None; timeout := t |};
       network := net; sent := log |} in
  (exists request,
      sent_by (call op) w_empty = [(request, t)]
      /\ req_headers request !! "X-API-Key" = None)
  /\ sent_by (call op) w_empty = sent_by (call op) w_none
  /\ fst (call op w_empty) = fst (call op w_none).
Proof.
  intros w_empty w_none.
  destruct (call_run op w_empty) as (r1 & Hu1 & Hv1 & Hb1 & Hh1 & Hsent1 & _ & Hrun1).
  destruct (call_run op w_none) as (r2 & Hu2 & Hv2 & Hb2 & Hh2 & Hsent2 & _ & Hrun2).
  assert (r1 = r2) as <-.
  { destruct r1, r2. unfold w_empty, w_none in *.
    cbn [full_url req_body req_headers req_method client api_key base_url Py.truthy]
      in *.
    congruence. }
  split; [| split].
  - exists r1. split; [exact Hsent1 |]. rewrite Hh1. reflexivity.
  - now rewrite Hsent1, Hsent2.
  - now rewrite Hrun1, Hrun2.
Qed.

End Operations.

(** ** The model on concrete inputs *)

Example rstrip_slash_ex1 : Py.rstrip_slash "http://h:80//" = "http://h:80".
Proof. reflexivity. Qed.

Example rstrip_slash_ex2 : Py.rstrip_slash "//a//" = "//a".
Proof. reflexivity. Qed.

Example rstrip_slash_ex3 : Py.rstrip_slash "///" = "".
Proof. reflexivity. Qed.

Example str_of_int_ex : Py.str_of_int 404 = "404" /\ Py.str_of_int (-5) = "-5".
Proof. split; vm_compute; reflexivity. Qed.

Example utf8_valid_ex :
  Py.utf8_valid (Py.encode_utf8 "{}") = true /\ Py.utf8_valid [xff] = false
  /\ Py.utf8_valid [xc3; xa9] = true /\ Py.utf8_valid [xc3] = false.
Proof. repeat split; reflexivity. Qed.

(** The unit tests of [tests/test_client.py]. *)

Example test_monitoring_snapshot :
  exists snapshot,
    fst (call (lib := Sample.runtime) GetMonitoringSnapshot MockServer.setUp)
    = Return (JObj snapshot)
    /\ In "metrics" (map fst snapshot).
Proof. eexists. split; [vm_compute; reflexivity | cbn; auto]. Qed.

Example test_autoscale_plan :
  fst (call (lib := Sample.runtime) (AutoscalePlan (Some 3)) MockServer.setUp)
  = Return (JObj [("decision", JStr "scale-up")]).
Proof. vm_compute. reflexivity. Qed.

Example test_deployment_plan_and_apply :
  let plan := call (lib := Sample.runtime) (DeploymentPlan [("desired_replicas", JInt 6)])
                   MockServer.setUp in
  fst plan = Return (JObj [("plan", JArr [JStr "scale"; JInt 6])])
  /\ fst (call (lib := Sample.runtime) (DeploymentApply [("desired_replicas", JInt 6)])
              (snd plan))
     = Return (JObj [("status", JStr "applied")]).
Proof. split; vm_compute; reflexivity. Qed.

(** The body [autoscale_plan(3)] puts on the wire. *)
Example autoscale_plan_3_body :
  map (fun sent => req_body (fst sent))
      (sent_by (autoscale_plan (lib := Sample.runtime) (Some 3)) MockServer.setUp)
  = [Some (Py.encode_utf8 ("{" +:+ Sample.quoted "replicas" +:+ ": 3}"))].
Proof. vm_compute. reflexivity. Qed.

(** ** Instances of the theorems, and the readings the code refutes *)

Lemma success_returns_parsed_json_witness :
  Forall (fun expected : operation * json =>
            sent_by (call (lib := Sample.runtime) (fst expected)) MockServer.setUp
            = exchange (lib := Sample.runtime) (fst expected) MockServer.setUp
            /\ fst (call (lib := Sample.runtime) (fst expected) MockServer.setUp)
               = Return (snd expected))
    [(GetMonitoringSnapshot, JObj [("metrics", JArr [])]);
     (GetHealth, JObj [("active_replicas", JInt 4)]);
     (AutoscalePlan (Some 3), JObj [("decision", JStr "scale-up")]);
     (DeploymentPlan [("desired_replicas", JInt 6)],
      JObj [("plan", JArr [JStr "scale"; JInt 6])]);
     (DeploymentApply [("desired_replicas", JInt 6)], JObj [("status", JStr "applied")]);
     (DeploymentStatus, JObj [("last_state", JStr "SUCCEEDED")])].
Proof.
  repeat (apply List.Forall_cons || apply List.Forall_nil); cbn [fst snd];
    eapply (success_returns_parsed_json (lib := Sample.runtime));
    first [ discriminate | reflexivity ].
Defined.


Lemma non_object_json_is_returned_witness :
  Forall (fun op : operation =>
            sent_by (call (lib := Sample.runtime) op) array_server
            = exchange (lib := Sample.runtime) op array_server
            /\ fst (call (lib := Sample.runtime) op array_server)
               = Return (JArr [JInt 1; JInt 2])
            /\ forall pairs,
                 fst (call (lib := Sample.runtime) op array_server) <> Return (JObj pairs))
    [GetMonitoringSnapshot; GetHealth; AutoscalePlan None;
     DeploymentPlan []; DeploymentApply []; DeploymentStatus].
Proof.
  repeat (apply List.Forall_cons || apply List.Forall_nil);
    eapply (non_object_json_is_returned (lib := Sample.runtime));
    first [ discriminate | reflexivity ].
Defined.

Lemma remote_rejection_message_witness :
  exists msg,
    sent_by (call (lib := Sample.runtime) GetHealth) versioned_client
    = exchange (lib := Sample.runtime) GetHealth versioned_client
    /\ fst (call (lib := Sample.runtime) GetHealth versioned_client)
       = Raise (HyperionClientError msg)
    /\ msg = "HTTP 404 for GET /api/health: "
             +:+ Sample.dumps (JObj [("error", JStr "not found")])
    /\ Py.contains msg "404"
    /\ Py.contains msg "GET /api/health"
    /\ Py.contains msg (Sample.dumps (JObj [("error", JStr "not found")])).
Proof.
  apply (remote_rejection_message (lib := Sample.runtime) GetHealth versioned_client
           404 "Not Found"
           (Py.encode_utf8 (Sample.dumps (JObj [("error", JStr "not found")])))).
  - reflexivity.
  - lia.
  - discriminate.
  - reflexivity.
Defined.

Lemma transport_failure_is_reported_witness :
  exists msg,
    fst (call (lib := Sample.runtime) GetMonitoringSnapshot stray_client)
    = Raise (HyperionClientError msg)
    /\ msg = "Unable to reach Hyperion at http://10.0.0.1:9/api/monitoring: [Errno 111] Connection refused"
    /\ sent_by (call (lib := Sample.runtime) GetMonitoringSnapshot) stray_client
       = exchange (lib := Sample.runtime) GetMonitoringSnapshot stray_client.
Proof.
  destruct (transport_failure_is_reported (lib := Sample.runtime)
              GetMonitoringSnapshot stray_client
              "[Errno 111] Connection refused" eq_refl)
    as (msg & Hcall & Hmsg & _ & _ & _ & Hsent & _).
  exists msg. split; [exact Hcall |]. split; [exact Hmsg | exact Hsent].
Defined.

Lemma request_url_witness :
  exists request1 request2,
    sent_by (call (lib := Sample.runtime) GetHealth) versioned_client = [(request1, 10)]
    /\ sent_by (call (lib := Sample.runtime) GetHealth)
               (fresh (new_client (MockServer.origin +:+ "/v2")) MockServer.serve)
       = [(request2, 10)]
    /\ full_url request1 = "http://127.0.0.1:8080/v2/api/health"
    /\ full_url request1 = full_url request2.
Proof.
  destruct (request_url (lib := Sample.runtime) GetHealth versioned_client
              (fresh (new_client (MockServer.origin +:+ "/v2")) MockServer.serve)
              (MockServer.origin +:+ "/v2") 2 0 eq_refl eq_refl)
    as (request1 & request2 & k & H1 & H2 & Hurl & _ & _ & Hsame).
  exists request1, request2. repeat split; assumption.
Defined.

(** C2 as it is stated fails: the byte 0xFF is not UTF-8, and the call
    raises [UnicodeDecodeError] out of the handler instead of the client's
    own error. *)
Lemma remote_rejection_garbled_body :
  fst (call (lib := Sample.runtime) GetHealth garbled_server) = Raise UnicodeDecodeError
  /\ ~ remote_rejection_for_every_body (lib := Sample.runtime) GetHealth garbled_server.
Proof.
  split; [reflexivity |].
  intros H.
  edestruct H as (msg & Hmsg & _); [reflexivity | reflexivity | lia |].
  discriminate Hmsg.
Qed.

(** C3 as it is stated fails: the empty string is a configured credential,
    and no [X-API-Key] header is sent for it. *)
Lemma credential_header_empty_key :
  api_key (client empty_key_client) = Some ""
  /\ ~ credential_header_for_every_key (lib := Sample.runtime) GetHealth empty_key_client.
Proof.
  split; [reflexivity |].
  intros (request & Hsent & _ & Hkey & _).
  injection Hsent as <-.
  destruct (Hkey "") as [_ Habsurd].
  specialize (Habsurd eq_refl). vm_compute in Habsurd. discriminate Habsurd.
Qed.

(** C6 as it is stated fails: a timeout of the wait for the response is not
    a [URLError], and the call lets it through instead of raising the
    client's own error. *)
Lemma transport_failure_read_timeout :
  reply (lib := Sample.runtime) GetHealth slow_server = Raise (raised_for ReadTimeout)
  /\ fst (call (lib := Sample.runtime) GetHealth slow_server)
     = Raise (OtherError "TimeoutError")
  /\ ~ transport_failure_for_every_cause (lib := Sample.runtime) GetHealth slow_server.
Proof.
  split; [reflexivity |]. split; [reflexivity |].
  intros H. destruct (H ReadTimeout eq_refl) as (msg & Hmsg & _).
  discriminate Hmsg.
Qed.

(** * Further properties of the client *)

Section Client_properties.

Context {lib : PyLib}.

(** X1. No call is retried: whatever its outcome, a call adds at most one
    invocation of the transport to the log, made with the configured
    timeout, and keeps the invocations logged before. *)
Theorem calls_are_not_retried (op : operation) (w : world) :
  exists made,
    sent (snd (call op w)) = sent w ++ made
    /\ (length made <= 1)%nat
    /\ forall request t, In (request, t) made -> t = timeout (client w).
Proof.
  destruct (call_run op w) as (r & _ & _ & _ & _ & _ & Hworld & _).
  exists [(r, timeout (client w))]. rewrite Hworld. cbn [logged sent].
  split; [reflexivity |]. split; [cbn; lia |].
  intros request t [[= _ <-] | []]. reflexivity.
Qed.

(** X2. Calls are independent: the request an operation sends after another
    call is the one it sends without it, and the log grows by the request
    of each call in turn. *)
Theorem calls_are_independent (op1 op2 : operation) (w : world) :
  sent_by (call op2) (snd (call op1 w)) = sent_by (call op2) w
  /\ sent (snd (call op2 (snd (call op1 w))))
     = sent w ++ sent_by (call op1) w ++ sent_by (call op2) w.
Proof.
  destruct (call_run op1 w) as (r1 & _ & _ & _ & _ & Hsent1 & Hworld1 & _).
  destruct (call_run op2 w) as (r2 & Hu2 & Hv2 & Hb2 & Hh2 & Hsent2 & _).
  destruct (call_run op2 (snd (call op1 w)))
    as (r & Hu & Hv & Hb & Hh & Hsent & Hworld & _).
  rewrite Hworld1 in Hu, Hh, Hsent, Hworld. cbn [logged client] in Hu, Hh, Hsent.
  assert (r = r2) as ->.
  { destruct r, r2. cbn [full_url req_body req_headers req_method] in *. congruence. }
  split.
  - rewrite Hworld1. now rewrite Hsent, Hsent2.
  - rewrite Hworld1, Hworld, Hsent1, Hsent2. cbn [logged sent client].
    now rewrite <- app_assoc.
Qed.

(** X3. The read operations send a GET request without a body. *)
Theorem read_operations_send_no_body (op : operation) (w : world) :
  In op read_operations ->
  exists request,
    sent_by (call op) w = [(request, timeout (client w))]
    /\ req_method request = "GET"
    /\ req_body request = None.
Proof.
  intros Hop.
  destruct (call_run op w) as (r & _ & Hverb & Hbody & _ & Hsent & _).
  exists r. split; [exact Hsent |]. rewrite Hverb, Hbody.
  cbn in Hop. destruct Hop as [<- | [<- | [<- | []]]]; now split.
Qed.

(** X4. [deployment_plan] and [deployment_apply] send a POST request whose
    body is the serialized configuration, for every configuration: the test
    is [data is not None], so the empty mapping is serialized too. *)
Theorem deployment_sends_config (op : operation) (config : pydict) (w : world) :
  In op [DeploymentPlan config; DeploymentApply config] ->
  exists request,
    sent_by (call op) w = [(request, timeout (client w))]
    /\ req_method request = "POST"
    /\ req_body request = Some (Py.encode_utf8 (json_dumps (JObj config)))
    /\ req_body request <> None.
Proof.
  intros Hop.
  destruct (call_run op w) as (r & _ & Hverb & Hbody & _ & Hsent & _).
  exists r. split; [exact Hsent |]. rewrite Hverb, Hbody.
  cbn in Hop. destruct Hop as [<- | [<- | []]]; now repeat split.
Qed.

(** X5. A successful response whose text is not JSON makes the call raise
    [JSONDecodeError] itself: parse errors are not turned into the client's
    error. *)
Theorem invalid_json_is_not_wrapped
    (op : operation) (w : world) (request : Request) (t : Z)
    (response : Response) (payload : string) :
  first_sent (call op) w = Some (request, t) ->
  answer w request t = Return response ->
  bytes_decode (charset_of response) (body response) = Return payload ->
  payload <> "" ->
  lib_loads payload = None ->
  fst (call op w) = Raise JSONDecodeError.
Proof.
  intros Hfirst Hanswer Hdecode Hnonempty Hloads.
  destruct (call_run op w) as (r & _ & _ & _ & _ & Hsent & _ & Hrun).
  destruct (first_sent_inv _ _ _ _ _ Hsent Hfirst) as [-> ->].
  rewrite Hrun, Hanswer, Hdecode.
  apply truthy_true in Hnonempty. rewrite Hnonempty.
  unfold json_loads. now rewrite Hloads.
Qed.

(** X6. A successful response whose body cannot be decoded makes the call
    raise the decoding error itself: [UnicodeDecodeError] for bytes the
    charset rejects, [LookupError] for a charset Python does not know. *)
Theorem undecodable_body_is_not_wrapped
    (op : operation) (w : world) (request : Request) (t : Z)
    (response : Response) (e : exn) :
  first_sent (call op) w = Some (request, t) ->
  answer w request t = Return response ->
  bytes_decode (charset_of response) (body response) = Raise e ->
  fst (call op w) = Raise e
  /\ (e = UnicodeDecodeError \/ e = LookupError (charset_of response)).
Proof.
  intros Hfirst Hanswer Hdecode.
  destruct (call_run op w) as (r & _ & _ & _ & _ & Hsent & _ & Hrun).
  destruct (first_sent_inv _ _ _ _ _ Hsent Hfirst) as [-> ->].
  rewrite Hrun, Hanswer, Hdecode. split; [reflexivity |].
  exact (bytes_decode_raises _ _ _ Hdecode).
Qed.

(** X7. The handler does not look at the status code: an error response of
    any status that [urlopen] raises as [HTTPError], below 400 as well, is
    reported in the same way when its body is UTF-8 text. *)
Theorem http_error_of_any_code_is_wrapped
    (op : operation) (w : world)
    (code : Z) (reason : string) (content : Py.bytes) :
  reply op w = Raise (HTTPError code reason (Some content)) ->
  Py.utf8_valid content = true ->
  sent_by (call op) w = exchange op w
  /\ fst (call op w)
     = Raise (HyperionClientError
                ("HTTP " +:+ Py.str_of_int code +:+ " for " +:+ verb_of op +:+ " "
                 +:+ path_of op +:+ ": " +:+ String.string_of_list_byte content)).
Proof.
  intros Hreply Htext.
  destruct (call_exchange op w) as (Hsent & _ & Hrun).
  split; [exact Hsent |].
  now rewrite Hrun, Hreply, (bytes_decode_utf8 _ Htext).
Qed.

(** X8. An error response whose body is present but empty gives a message
    that ends after the colon: the reason phrase is used only when the
    error has no body at all. *)
Theorem empty_error_body_drops_reason
    (op : operation) (w : world) (request : Request) (t : Z)
    (code : Z) (reason : string) :
  first_sent (call op) w = Some (request, t) ->
  answer w request t = Raise (HTTPError code reason (Some [])) ->
  fst (call op w)
  = Raise (HyperionClientError
             ("HTTP " +:+ Py.str_of_int code +:+ " for " +:+ verb_of op +:+ " "
              +:+ path_of op +:+ ": ")).
Proof.
  intros Hfirst Hanswer.
  destruct (call_run op w) as (r & _ & _ & _ & _ & Hsent & _ & Hrun).
  destruct (first_sent_inv _ _ _ _ _ Hsent Hfirst) as [-> ->].
  now rewrite Hrun, Hanswer, bytes_decode_empty.
Qed.

(** X9. An exception of the transport that is neither [HTTPError] nor
    [URLError], such as a timeout while the response is read, leaves the
    call as it is. *)
Theorem other_transport_errors_propagate
    (op : operation) (w : world) (request : Request) (t : Z) (e : exn) :
  first_sent (call op) w = Some (request, t) ->
  answer w request t = Raise e ->
  (forall code reason fp, e <> HTTPError code reason fp) ->
  (forall reason, e <> URLError reason) ->
  fst (call op w) = Raise e.
Proof.
  intros Hfirst Hanswer Hhttp Hurl.
  destruct (call_run op w) as (r & _ & _ & _ & _ & Hsent & _ & Hrun).
  destruct (first_sent_inv _ _ _ _ _ Hsent Hfirst) as [-> ->].
  rewrite Hrun, Hanswer.
  destruct e; try reflexivity.
  - now destruct (Hhttp code reason fp).
  - now destruct (Hurl reason).
Qed.

(** X10. No call raises [HTTPError] or [URLError]: the exceptions of the
    transport layer never reach the caller under their own type. *)
Theorem urllib_errors_never_escape (op : operation) (w : world) :
  (forall code reason fp, fst (call op w) <> Raise (HTTPError code reason fp))
  /\ (forall reason, fst (call op w) <> Raise (URLError reason)).
Proof.
  destruct (call_run op w) as (r & _ & _ & _ & _ & _ & _ & Hrun).
  assert (Hdecode : forall cs b e,
             bytes_decode cs b = Raise e ->
             (forall code reason fp, e <> HTTPError code reason fp)
             /\ (forall reason, e <> URLError reason)).
  { intros cs b e He.
    destruct (bytes_decode_raises _ _ _ He) as [-> | ->]; split; discriminate. }
  rewrite Hrun.
  destruct (answer w r (timeout (client w))) as [response | e].
  - destruct (bytes_decode (charset_of response) (body response))
      as [payload | e] eqn:He.
    + destruct (Py.truthy payload); [| split; discriminate].
      unfold json_loads. destruct (lib_loads payload); split; discriminate.
    + destruct (Hdecode _ _ _ He) as [H1 H2].
      split.
    * intros c' r' fp' [= ->]. now apply (H1 c' r' fp').
    * intros r' [= ->]. now apply (H2 r').
  - destruct e as [| code reason [content |] | | | | |]; try (split; discriminate).
    destruct (bytes_decode "utf-8" content) as [detail | e] eqn:He;
      [split; discriminate |].
    destruct (Hdecode _ _ _ He) as [H1 H2].
    split.
    + intros c' r' fp' [= ->]. now apply (H1 c' r' fp').
    + intros r' [= ->]. now apply (H2 r').
Qed.

(** X11. The mapping of headers the client passes to [Request] has no key
    other than [Content-Type] and [X-API-Key]; what [urllib] adds on the
    wire is not the client's. *)
Theorem no_other_header (op : operation) (w : world) :
  exists request,
    sent_by (call op) w = [(request, timeout (client w))]
    /\ forall name, is_Some (req_headers request !! name) ->
                    name = "Content-Type" \/ name = "X-API-Key".
Proof.
  destruct (call_run op w) as (r & _ & _ & _ & Hheaders & Hsent & _).
  exists r. split; [exact Hsent |]. rewrite Hheaders.
  intros name [v Hv].
  assert (Hsingle : forall x : string,
             ({[ "Content-Type" := "application/json" ]} : gmap string string) !! name
             = Some x -> name = "Content-Type").
  { intros x Hx. apply lookup_singleton_Some in Hx. now destruct Hx. }
  destruct (api_key (client w)) as [key |]; [destruct (Py.truthy key) |].
  - destruct (decide (name = "X-API-Key")) as [-> | Hne]; [now right | left].
    rewrite lookup_insert_ne in Hv by congruence. eauto.
  - left. eauto.
  - left. eauto.
Qed.

End Client_properties.

(** * The client against the handler of the tests *)

Section Handler_properties.

Context {lib : PyLib}.

Variable float_lt : string -> Z -> bool.

Lemma encode_utf8_empty (s : string) : Py.encode_utf8 s = [] -> s = "".
Proof.
  unfold Py.encode_utf8. intros H.
  rewrite <- (String.string_of_list_byte_of_string s). now rewrite H.
Qed.

(** A text that travels is decoded to itself at the other end. *)
Lemma wire_text (s : string) :
  travels s -> bytes_decode "utf-8" (Py.encode_utf8 s) = Return s.
Proof.
  intros [Hvalid _]. rewrite (bytes_decode_utf8 _ Hvalid).
  unfold Py.encode_utf8. now rewrite String.string_of_list_byte_of_string.
Qed.

Lemma transmits_travels (v : json) : transmits v -> travels (json_dumps v).
Proof. intros (Hvalid & Hne & _). now split. Qed.

(** The handler reads a body that travels as the text that was sent. *)
Lemma received_text (text : string) :
  travels text ->
  match Py.encode_utf8 text with
  | b :: bs => bytes_decode "utf-8" (b :: bs)
  | [] => Return "{}"
  end = Return text.
Proof.
  intros Htext.
  destruct (Py.encode_utf8 text) as [| b bs] eqn:E.
  - apply encode_utf8_empty in E. now destruct Htext.
  - rewrite <- E. now apply wire_text.
Qed.

(** The client returns the payload of a 200 reply written by
    [_write_json], when that payload survives the wire. *)
Lemma reads_reply (op : operation) (w : world) (v : json) :
  reply op w = MockServer.http_reply (Handler._write_json v 200) ->
  transmits v ->
  fst (call op w) = Return v.
Proof.
  intros Hreply Hv.
  destruct (call_exchange op w) as (_ & _ & Hrun).
  rewrite Hrun, Hreply. cbn [MockServer.http_reply Handler._write_json].
  change ((200 <=? 200) && (200 <? 300)) with true. cbn iota.
  unfold charset_of. cbn [content_charset body].
  rewrite (wire_text _ (transmits_travels _ Hv)).
  destruct Hv as (_ & Hne & Hloads).
  apply truthy_true in Hne. now rewrite Hne.
Qed.

Lemma rstrip_slash_origin (k : nat) :
  Py.rstrip_slash (MockServer.origin +:+ Py.slashes k) = MockServer.origin.
Proof. now rewrite rstrip_slash_append. Qed.

(** A client whose base address is [origin], with or without trailing
    separators, asks the server for the path of the operation. *)
Lemma request_at_origin (op : operation) (w : world) (k : nat) :
  base_url (client w) = MockServer.origin +:+ Py.slashes k ->
  full_url (request_of (client w) op) = MockServer.origin +:+ path_of op.
Proof. intros Hbase. cbn [request_of full_url]. now rewrite Hbase, rstrip_slash_origin. Qed.

(** The reply of the server of the tests to the request of an operation. *)
Lemma served_reply (op : operation) (w : world) (k : nat) :
  base_url (client w) = MockServer.origin +:+ Py.slashes k ->
  served float_lt w ->
  (verb_of op = "GET" -> reply op w = Handler.answers_GET (path_of op))
  /\ (verb_of op = "POST" ->
      reply op w
      = Handler.answers_POST float_lt (path_of op)
          (req_body (request_of (client w) op))).
Proof.
  intros Hbase Hserved.
  assert (exists rest, path_of op = String "/" rest /\ plain rest = true)
    as (rest & Hpath & Hplain).
  { destruct op; eexists; split; reflexivity. }
  assert (Hurl : full_url (request_of (client w) op)
                 = MockServer.origin +:+ String "/" rest).
  { rewrite (request_at_origin op w k Hbase). now rewrite Hpath. }
  unfold reply, answer. rewrite Hpath.
  exact (Hserved (length (sent w)) (request_of (client w) op) (timeout (client w))
           rest Hplain Hurl).
Qed.

(** X13. Against the handler of the tests, [autoscale_plan(n)] posts to the
    autoscale path of the server and returns the decision [scale-up] when
    [n < 6] and [no-op] otherwise, for every integer [n]. *)
Theorem autoscale_plan_decision (w : world) (n : Z) (k : nat) :
  let decision := JObj [("decision", JStr (if n <? 6 then "scale-up" else "no-op"))] in
  base_url (client w) = MockServer.origin +:+ Py.slashes k ->
  served float_lt w ->
  transmits (JObj [("replicas", JInt n)]) ->
  transmits decision ->
  sent_by (autoscale_plan (Some n)) w = exchange (AutoscalePlan (Some n)) w
  /\ full_url (request_of (client w) (AutoscalePlan (Some n)))
     = MockServer.origin +:+ "/api/autoscale/plan"
  /\ fst (autoscale_plan (Some n) w) = Return decision.
Proof.
  intros decision Hbase Hserved Hsent_v Hdecision.
  destruct (call_exchange (AutoscalePlan (Some n)) w) as (Hsent & _).
  split; [exact Hsent |].
  split; [exact (request_at_origin (AutoscalePlan (Some n)) w k Hbase) |].
  apply (reads_reply (AutoscalePlan (Some n)) w decision); [| exact Hdecision].
  destruct (served_reply (AutoscalePlan (Some n)) w k Hbase Hserved) as [_ ->];
    [| reflexivity].
  cbn [request_of req_body data_of path_of].
  unfold Handler.answers_POST, Handler.do_POST.
  rewrite (received_text _ (transmits_travels _ Hsent_v)).
  destruct Hsent_v as (_ & _ & ->). reflexivity.
Qed.

(** X14. Against the handler of the tests, [autoscale_plan()] without
    [replicas] posts no body; the handler then reads the empty mapping,
    takes 4 for the missing key and the call returns [scale-up]. *)
Theorem autoscale_plan_default (w : world) (k : nat) :
  let decision := JObj [("decision", JStr "scale-up")] in
  base_url (client w) = MockServer.origin +:+ Py.slashes k ->
  served float_lt w ->
  json_loads "{}" = Return (JObj []) ->
  transmits decision ->
  sent_by (autoscale_plan None) w = exchange (AutoscalePlan None) w
  /\ req_body (request_of (client w) (AutoscalePlan None)) = None
  /\ full_url (request_of (client w) (AutoscalePlan None))
     = MockServer.origin +:+ "/api/autoscale/plan"
  /\ fst (autoscale_plan None w) = Return decision.
Proof.
  intros decision Hbase Hserved Hempty Hdecision.
  destruct (call_exchange (AutoscalePlan None) w) as (Hsent & _).
  split; [exact Hsent |]. split; [reflexivity |].
  split; [exact (request_at_origin (AutoscalePlan None) w k Hbase) |].
  apply (reads_reply (AutoscalePlan None) w decision); [| exact Hdecision].
  destruct (served_reply (AutoscalePlan None) w k Hbase Hserved) as [_ ->];
    [| reflexivity].
  cbn [request_of req_body data_of path_of].
  unfold Handler.answers_POST, Handler.do_POST. now rewrite Hempty.
Qed.

(** X15. Against the handler of the tests, [deployment_plan(config)] posts
    to the plan path of the server and, for a configuration that survives
    the wire, returns the plan [["scale", r]] where [r] is the
    [desired_replicas] of the configuration, or 4 when it has no such key. *)
Theorem deployment_plan_echoes_replicas (w : world) (config : pydict) (k : nat) :
  let plan :=
    JObj [("plan", JArr [JStr "scale";
                         MockServer.dict_get config "desired_replicas" (JInt 4)])] in
  base_url (client w) = MockServer.origin +:+ Py.slashes k ->
  served float_lt w ->
  transmits (JObj config) ->
  transmits plan ->
  sent_by (deployment_plan config) w = exchange (DeploymentPlan config) w
  /\ full_url (request_of (client w) (DeploymentPlan config))
     = MockServer.origin +:+ "/api/deploy/plan"
  /\ fst (deployment_plan config w) = Return plan.
Proof.
  intros plan Hbase Hserved Hconfig Hplan.
  destruct (call_exchange (DeploymentPlan config) w) as (Hsent & _).
  split; [exact Hsent |].
  split; [exact (request_at_origin (DeploymentPlan config) w k Hbase) |].
  apply (reads_reply (DeploymentPlan config) w plan); [| exact Hplan].
  destruct (served_reply (DeploymentPlan config) w k Hbase Hserved) as [_ ->];
    [| reflexivity].
  cbn [request_of req_body data_of path_of].
  unfold Handler.answers_POST, Handler.do_POST.
  rewrite (received_text _ (transmits_travels _ Hconfig)).
  destruct Hconfig as (_ & _ & ->). reflexivity.
Qed.

(** X16. Against the handler of the tests, [deployment_apply(config)] posts
    to the apply path of the server and returns the status [applied]
    whatever the handler reads in the configuration, as long as it can
    read it. *)
Theorem deployment_apply_is_applied
    (w : world) (config : pydict) (k : nat) (read : json) :
  let applied := JObj [("status", JStr "applied")] in
  base_url (client w) = MockServer.origin +:+ Py.slashes k ->
  served float_lt w ->
  travels (json_dumps (JObj config)) ->
  json_loads (json_dumps (JObj config)) = Return read ->
  transmits applied ->
  sent_by (deployment_apply config) w = exchange (DeploymentApply config) w
  /\ full_url (request_of (client w) (DeploymentApply config))
     = MockServer.origin +:+ "/api/deploy/apply"
  /\ fst (deployment_apply config w) = Return applied.
Proof.
  intros applied Hbase Hserved Htravels Hread Happlied.
  destruct (call_exchange (DeploymentApply config) w) as (Hsent & _).
  split; [exact Hsent |].
  split; [exact (request_at_origin (DeploymentApply config) w k Hbase) |].
  apply (reads_reply (DeploymentApply config) w applied); [| exact Happlied].
  destruct (served_reply (DeploymentApply config) w k Hbase Hserved) as [_ ->];
    [| reflexivity].
  cbn [request_of req_body data_of path_of].
  unfold Handler.answers_POST, Handler.do_POST.
  rewrite (received_text _ Htravels), Hread. reflexivity.
Qed.

(** X17. Against the handler of the tests, an operation whose path has a GET
    entry in [RESPONSES] sends a GET for that path to the server and returns
    the payload of the entry. *)
Theorem read_operation_returns_entry
    (op : operation) (w : world) (k : nat) (payload : json) (code : Z) :
  MockServer.RESPONSES "GET" (path_of op) = Some (payload, code) ->
  base_url (client w) = MockServer.origin +:+ Py.slashes k ->
  served float_lt w ->
  transmits payload ->
  sent_by (call op) w = exchange op w
  /\ req_method (request_of (client w) op) = "GET"
  /\ full_url (request_of (client w) op) = MockServer.origin +:+ path_of op
  /\ fst (call op w) = Return payload.
Proof.
  intros Hentry Hbase Hserved Hpayload.
  assert (Hverb : verb_of op = "GET").
  { destruct op; cbn in Hentry; try discriminate; reflexivity. }
  destruct (call_exchange op w) as (Hsent & _).
  split; [exact Hsent |]. split; [exact Hverb |].
  split; [exact (request_at_origin op w k Hbase) |].
  apply (reads_reply op w payload); [| exact Hpayload].
  destruct (served_reply op w k Hbase Hserved) as [-> _]; [| exact Hverb].
  unfold Handler.answers_GET, Handler.do_GET. rewrite Hentry.
  destruct op; cbn in Hentry; try discriminate; now injection Hentry as <- <-.
Qed.

(** X18. A GET of a path that has no entry in [RESPONSES] is answered 404
    and makes [_request] raise the client's error, with the code, the path
    and the body [{"error": "not found"}] in its message. *)
Theorem unknown_path_is_rejected
    (path : string) (w : world) (request : Request) (t : Z) :
  let body := json_dumps (JObj [("error", JStr "not found")]) in
  MockServer.RESPONSES "GET" path = None ->
  first_sent (_request path "GET" None) w = Some (request, t) ->
  answer w request t = Handler.answers_GET path ->
  travels body ->
  fst (_request path "GET" None w)
  = Raise (HyperionClientError ("HTTP 404 for GET " +:+ path +:+ ": " +:+ body)).
Proof.
  intros body Hentry Hfirst Hanswer Hbody.
  destruct (_request_run path "GET" None w) as (r & _ & _ & _ & _ & Hrun).
  unfold first_sent, sent_by in Hfirst. rewrite Hrun in Hfirst.
  cbn [snd logged sent] in Hfirst. rewrite drop_app_length in Hfirst.
  injection Hfirst as <- <-.
  unfold answer in Hanswer. rewrite Hrun. cbn [fst]. rewrite Hanswer.
  unfold Handler.answers_GET, Handler.do_GET. rewrite Hentry.
  cbn [MockServer.http_reply Handler._write_json].
  change ((200 <=? 404) && (404 <? 300)) with false. cbn iota.
  fold body. now rewrite (wire_text _ Hbody).
Qed.

(** X19. A POST to a path the handler does not know is answered 404 and
    makes [_request] raise the client's error, with the code, the path and
    the body [{"error": "unsupported"}] in its message. *)
Theorem unsupported_post_is_rejected
    (path : string) (data : pydict) (w : world) (request : Request) (t : Z) :
  let body := json_dumps (JObj [("error", JStr "unsupported")]) in
  ~ In path ["/api/autoscale/plan"; "/api/deploy/plan"; "/api/deploy/apply"] ->
  first_sent (_request path "POST" (Some data)) w = Some (request, t) ->
  answer w request t = Handler.answers_POST float_lt path (req_body request) ->
  transmits (JObj data) ->
  travels body ->
  fst (_request path "POST" (Some data) w)
  = Raise (HyperionClientError ("HTTP 404 for POST " +:+ path +:+ ": " +:+ body)).
Proof.
  intros body Hpath Hfirst Hanswer Hdata Hbody.
  destruct (_request_run path "POST" (Some data) w) as (r & _ & _ & Hreq & _ & Hrun).
  unfold first_sent, sent_by in Hfirst. rewrite Hrun in Hfirst.
  cbn [snd logged sent] in Hfirst. rewrite drop_app_length in Hfirst.
  injection Hfirst as <- <-.
  unfold answer in Hanswer. rewrite Hrun. cbn [fst]. rewrite Hanswer, Hreq.
  unfold Handler.answers_POST, Handler.do_POST.
  rewrite (received_text _ (transmits_travels _ Hdata)).
  destruct Hdata as (_ & _ & ->).
  assert (Hne : forall p, In p ["/api/autoscale/plan"; "/api/deploy/plan";
                               "/api/deploy/apply"] -> String.eqb path p = false).
  { intros p Hp. apply String.eqb_neq. intros ->. now apply Hpath. }
  rewrite !Hne by (cbn; tauto).
  cbn [MockServer.http_reply Handler._write_json].
  change ((200 <=? 404) && (404 <? 300)) with false. cbn iota.
  fold body. now rewrite (wire_text _ Hbody).
Qed.

End Handler_properties.

(** ** Instances of the further properties *)

Ltac transmitted :=
  split; [vm_compute; reflexivity | split; [vm_compute; discriminate | vm_compute; reflexivity]].

Lemma read_operations_send_no_body_witness :
  exists request,
    sent_by (call (lib := Sample.runtime) GetHealth) MockServer.setUp = [(request, 10)]
    /\ req_method request = "GET"
    /\ req_body request = None.
Proof.
  apply (read_operations_send_no_body (lib := Sample.runtime) GetHealth MockServer.setUp).
  cbn. tauto.
Defined.

Lemma deployment_sends_config_witness :
  exists request,
    sent_by (call (lib := Sample.runtime) (DeploymentPlan [])) MockServer.setUp
    = [(request, 10)]
    /\ req_method request = "POST"
    /\ req_body request = Some (Py.encode_utf8 "{}")
    /\ req_body request <> None.
Proof.
  apply (deployment_sends_config (lib := Sample.runtime) (DeploymentPlan []) []
           MockServer.setUp).
  cbn. tauto.
Defined.

Lemma invalid_json_is_not_wrapped_witness :
  fst (call (lib := Sample.runtime) GetHealth chatty_server) = Raise JSONDecodeError.
Proof.
  eapply (invalid_json_is_not_wrapped (lib := Sample.runtime) GetHealth chatty_server).
  - reflexivity.
  - reflexivity.
  - reflexivity.
  - discriminate.
  - reflexivity.
Defined.

Lemma undecodable_body_is_not_wrapped_witness :
  fst (call (lib := Sample.runtime) GetHealth noisy_server) = Raise UnicodeDecodeError.
Proof.
  apply (undecodable_body_is_not_wrapped (lib := Sample.runtime) GetHealth noisy_server
           {| full_url := "http://h/api/health"; req_body := None;
              req_headers := {[ "Content-Type" := "application/json" ]};
              req_method := "GET" |}
           10 {| status := 200; content_charset := None; body := [xff] |}
           UnicodeDecodeError eq_refl eq_refl eq_refl).
Defined.

Lemma http_error_of_any_code_is_wrapped_witness :
  sent_by (call (lib := Sample.runtime) (AutoscalePlan None)) redirecting_server
  = exchange (lib := Sample.runtime) (AutoscalePlan None) redirecting_server
  /\ fst (call (lib := Sample.runtime) (AutoscalePlan None) redirecting_server)
     = Raise (HyperionClientError "HTTP 307 for POST /api/autoscale/plan: moved to /v2").
Proof.
  apply (http_error_of_any_code_is_wrapped (lib := Sample.runtime)
           (AutoscalePlan None) redirecting_server
           307 "Temporary Redirect" (Py.encode_utf8 "moved to /v2") eq_refl eq_refl).
Defined.

Lemma empty_error_body_drops_reason_witness :
  fst (call (lib := Sample.runtime) GetHealth terse_server)
  = Raise (HyperionClientError "HTTP 404 for GET /api/health: ").
Proof.
  apply (empty_error_body_drops_reason (lib := Sample.runtime) GetHealth terse_server
           {| full_url := "http://h/api/health"; req_body := None;
              req_headers := {[ "Content-Type" := "application/json" ]};
              req_method := "GET" |}
           10 404 "Not Found" eq_refl eq_refl).
Defined.

Lemma other_transport_errors_propagate_witness :
  fst (call (lib := Sample.runtime) GetHealth slow_server)
  = Raise (OtherError "TimeoutError").
Proof.
  eapply (other_transport_errors_propagate (lib := Sample.runtime) GetHealth slow_server).
  - reflexivity.
  - reflexivity.
  - discriminate.
  - discriminate.
Defined.

Lemma undecodable_error_body_witness :
  fst (call (lib := Sample.runtime) GetHealth garbled_server) = Raise UnicodeDecodeError.
Proof.
  eapply (undecodable_error_body (lib := Sample.runtime) GetHealth garbled_server).
  - reflexivity.
  - reflexivity.
  - reflexivity.
Defined.

Lemma strip_prefix_append (p s : string) : Sample.strip_prefix p (p +:+ s) = Some s.
Proof.
  induction p as [| c p IH]; cbn.
  - now destruct s.
  - now rewrite Ascii.eqb_refl.
Qed.

(** The handler of the sample server is the handler of the tests on the
    sample runtime. *)
Lemma mock_do_POST (path : string) (content : option Py.bytes) :
  MockServer.do_POST path content
  = Handler.do_POST (lib := Sample.runtime) Sample.float_lt path content.
Proof.
  unfold MockServer.do_POST, Handler.do_POST, json_loads.
  cbn [lib_loads Sample.runtime].
  assert (Hdata : forall b bs,
             (if Py.utf8_valid (b :: bs)
              then Return (String.string_of_list_byte (b :: bs))
              else Raise UnicodeDecodeError)
             = bytes_decode (lib := Sample.runtime) "utf-8" (b :: bs)).
  { intros b bs. unfold bytes_decode. now rewrite String.eqb_refl. }
  destruct content as [[| b bs] |]; try rewrite Hdata.
  - now destruct (Sample.loads "{}").
  - destruct (bytes_decode "utf-8" (b :: bs)) as [text |]; [| reflexivity].
    now destruct (Sample.loads text).
  - now destruct (Sample.loads "{}").
Qed.

(** The store of the tests is served by the handler, on the sample runtime,
    for every client and log. *)
Lemma mock_server_serves (c : HyperionClient) (log : list (Request * Z)) :
  served (lib := Sample.runtime) Sample.float_lt
    {| client := c; network := MockServer.serve; sent := log |}.
Proof.
  intros n request t rest _ Hurl. cbn [network]. unfold MockServer.serve.
  rewrite Hurl, strip_prefix_append.
  split; intros ->; [reflexivity |].
  cbn [String.eqb Ascii.eqb Bool.eqb]. unfold Handler.answers_POST.
  now rewrite mock_do_POST.
Qed.

Lemma autoscale_plan_decision_witness :
  sent_by (autoscale_plan (lib := Sample.runtime) (Some 7)) MockServer.setUp
  = exchange (lib := Sample.runtime) (AutoscalePlan (Some 7)) MockServer.setUp
  /\ full_url (request_of (lib := Sample.runtime) (client MockServer.setUp)
                 (AutoscalePlan (Some 7)))
     = "http://127.0.0.1:8080/api/autoscale/plan"
  /\ fst (autoscale_plan (lib := Sample.runtime) (Some 7) MockServer.setUp)
     = Return (JObj [("decision", JStr "no-op")]).
Proof.
  apply (autoscale_plan_decision (lib := Sample.runtime) Sample.float_lt
           MockServer.setUp 7 0).
  - reflexivity.
  - apply mock_server_serves.
  - transmitted.
  - transmitted.
Defined.

Lemma autoscale_plan_default_witness :
  sent_by (autoscale_plan (lib := Sample.runtime) None) MockServer.setUp
  = exchange (lib := Sample.runtime) (AutoscalePlan None) MockServer.setUp
  /\ req_body (request_of (lib := Sample.runtime) (client MockServer.setUp)
                 (AutoscalePlan None)) = None
  /\ full_url (request_of (lib := Sample.runtime) (client MockServer.setUp)
                 (AutoscalePlan None))
     = "http://127.0.0.1:8080/api/autoscale/plan"
  /\ fst (autoscale_plan (lib := Sample.runtime) None MockServer.setUp)
     = Return (JObj [("decision", JStr "scale-up")]).
Proof.
  apply (autoscale_plan_default (lib := Sample.runtime) Sample.float_lt
           MockServer.setUp 0).
  - reflexivity.
  - apply mock_server_serves.
  - reflexivity.
  - transmitted.
Defined.

Lemma deployment_plan_echoes_replicas_witness :
  sent_by (deployment_plan (lib := Sample.runtime) [("region", JStr "eu")])
    MockServer.setUp
  = exchange (lib := Sample.runtime) (DeploymentPlan [("region", JStr "eu")])
      MockServer.setUp
  /\ full_url (request_of (lib := Sample.runtime) (client MockServer.setUp)
                 (DeploymentPlan [("region", JStr "eu")]))
     = "http://127.0.0.1:8080/api/deploy/plan"
  /\ fst (deployment_plan (lib := Sample.runtime) [("region", JStr "eu")]
            MockServer.setUp)
     = Return (JObj [("plan", JArr [JStr "scale"; JInt 4])]).
Proof.
  apply (deployment_plan_echoes_replicas (lib := Sample.runtime) Sample.float_lt
           MockServer.setUp [("region", JStr "eu")] 0).
  - reflexivity.
  - apply mock_server_serves.
  - transmitted.
  - transmitted.
Defined.

Lemma deployment_apply_is_applied_witness :
  sent_by (deployment_apply (lib := Sample.runtime) [("desired_replicas", JInt 6)])
    MockServer.setUp
  = exchange (lib := Sample.runtime) (DeploymentApply [("desired_replicas", JInt 6)])
      MockServer.setUp
  /\ full_url (request_of (lib := Sample.runtime) (client MockServer.setUp)
                 (DeploymentApply [("desired_replicas", JInt 6)]))
     = "http://127.0.0.1:8080/api/deploy/apply"
  /\ fst (deployment_apply (lib := Sample.runtime) [("desired_replicas", JInt 6)]
            MockServer.setUp)
     = Return (JObj [("status", JStr "applied")]).
Proof.
  apply (deployment_apply_is_applied (lib := Sample.runtime) Sample.float_lt
           MockServer.setUp [("desired_replicas", JInt 6)] 0
           (JObj [("desired_replicas", JInt 6)])).
  - reflexivity.
  - apply mock_server_serves.
  - split; [vm_compute; reflexivity | vm_compute; discriminate].
  - vm_compute. reflexivity.
  - transmitted.
Defined.

Lemma read_operation_returns_entry_witness :
  sent_by (call (lib := Sample.runtime) DeploymentStatus) MockServer.setUp
  = exchange (lib := Sample.runtime) DeploymentStatus MockServer.setUp
  /\ req_method (request_of (lib := Sample.runtime) (client MockServer.setUp)
                   DeploymentStatus) = "GET"
  /\ full_url (request_of (lib := Sample.runtime) (client MockServer.setUp)
                 DeploymentStatus)
     = "http://127.0.0.1:8080/api/deploy/status"
  /\ fst (call (lib := Sample.runtime) DeploymentStatus MockServer.setUp)
     = Return (JObj [("last_state", JStr "SUCCEEDED")]).
Proof.
  apply (read_operation_returns_entry (lib := Sample.runtime) Sample.float_lt
           DeploymentStatus MockServer.setUp 0
           (JObj [("last_state", JStr "SUCCEEDED")]) 200).
  - reflexivity.
  - reflexivity.
  - apply mock_server_serves.
  - transmitted.
Defined.

Lemma unknown_path_is_rejected_witness :
  fst (_request (lib := Sample.runtime) "/api/nothing" "GET" None MockServer.setUp)
  = Raise (HyperionClientError
             ("HTTP 404 for GET /api/nothing: "
              +:+ Sample.dumps (JObj [("error", JStr "not found")]))).
Proof.
  eapply (unknown_path_is_rejected (lib := Sample.runtime) "/api/nothing"
            MockServer.setUp).
  - reflexivity.
  - reflexivity.
  - vm_compute. reflexivity.
  - split; [vm_compute; reflexivity | vm_compute; discriminate].
Defined.

Lemma unsupported_post_is_rejected_witness :
  fst (_request (lib := Sample.runtime) "/api/rollback" "POST" (Some [])
         MockServer.setUp)
  = Raise (HyperionClientError
             ("HTTP 404 for POST /api/rollback: "
              +:+ Sample.dumps (JObj [("error", JStr "unsupported")]))).
Proof.
  eapply (unsupported_post_is_rejected (lib := Sample.runtime) Sample.float_lt
            "/api/rollback" [] MockServer.setUp).
  - cbn. intros [H | [H | [H | []]]]; discriminate H.
  - reflexivity.
  - vm_compute. reflexivity.
  - transmitted.
  - split; [vm_compute; reflexivity | vm_compute; discriminate].
Defined.
